(** * did-key.js: the key-type registry, dispatcher, did:jwk synthesizer,
      curve classifier and cross-representation converter

    A shallow embedding of [packages/did-key.js/src/index.ts].  The handler
    modules ([@transmute/did-key-ed25519] and friends) are external: they are
    section variables, and every call the dispatcher makes into them is
    recorded in a trace.

    Conventions of the embedding.
    - JavaScript values are the inductive [value]: the plain JSON shapes the
      code handles, [undefined], and the one closure the code creates.
      Numbers do not occur in the documents and keys handled here and are
      left out.
    - A string is a Rocq [string], one character per code unit; the code
      units are those below 256.
    - An object is the list of its own properties in insertion order.
      Property names that look like array indices, which an engine would
      enumerate first, do not occur in the keys and documents handled here.
    - A thrown exception or a rejected promise is the [inl] of [error + A].
*)

From Stdlib Require Import String Ascii List Bool Arith.
From Stdlib Require Import DecimalString.
Import ListNotations.
Open Scope string_scope.
Set Warnings "-register-all".

(* ------------------------------------------------------------------ *)
(** ** JavaScript values *)

Inductive value : Type :=
| VUndefined
| VNull
| VBool (b : bool)
| VStr (s : string)
| VObj (props : list (string * value))
| VArr (items : list value)
| VSecureRandom (seed : value).
  (* [VSecureRandom seed] is the closure [() => Buffer.from(seed, 'hex')]
     that generate2 builds (index.ts:112). *)

(** What a failed call carries. *)
Inductive error : Type :=
| Error (message : string)        (* [throw new Error(message)] in index.ts *)
| TypeErrorRead (prop : string)   (* reading [prop] of undefined or null *)
| TypeErrorCall (prop : string)   (* calling [x.prop] where it is no function *)
| Rejected (reason : string).     (* a handler threw or rejected *)

Definition result (A : Type) : Type := (error + A)%type.

Module Js.

(** ToBoolean on the value domain. *)
Definition truthy (v : value) : bool :=
  match v with
  | VUndefined | VNull => false
  | VBool b => b
  | VStr s => negb (String.eqb s EmptyString)
  | _ => true
  end.

Fixpoint assoc {A : Type} (key : string) (ps : list (string * A)) : option A :=
  match ps with
  | [] => None
  | (k, a) :: rest => if String.eqb k key then Some a else assoc key rest
  end.

(** [v.prop] for the property names the code reads ([type], [id],
    [controller], [publicKeyJwk], [kid], [kty], [crv], [didDocument],
    [verificationMethod]): none of them is defined on a prototype, so only
    own properties of objects answer. *)
Definition get (prop : string) (v : value) : result value :=
  match v with
  | VUndefined | VNull => inl (TypeErrorRead prop)
  | VObj ps => inr (match assoc prop ps with Some x => x | None => VUndefined end)
  | _ => inr VUndefined
  end.

(** [a === b].  Two objects, arrays or functions are equal only when they
    are the same reference; values that reach a comparison here come from
    different calls, hence are never the same reference. *)
Definition strict_eq (a b : value) : bool :=
  match a, b with
  | VUndefined, VUndefined => true
  | VNull, VNull => true
  | VBool x, VBool y => Bool.eqb x y
  | VStr x, VStr y => String.eqb x y
  | _, _ => false
  end.

(** Assignment of one property: an existing name keeps its place. *)
Fixpoint set (key : string) (v : value) (ps : list (string * value))
  : list (string * value) :=
  match ps with
  | [] => [(key, v)]
  | (k, old) :: rest =>
      if String.eqb k key then (k, v) :: rest else (k, old) :: set key v rest
  end.

Definition index_name (i : nat) : string :=
  NilEmpty.string_of_uint (Nat.to_uint i).

Fixpoint indexed {A : Type} (f : A -> value) (i : nat) (xs : list A)
  : list (string * value) :=
  match xs with
  | [] => []
  | x :: rest => (index_name i, f x) :: indexed f (S i) rest
  end.

Fixpoint chars (s : string) : list ascii :=
  match s with
  | EmptyString => []
  | String c rest => c :: chars rest
  end.

(** The own enumerable properties that [...v] copies. *)
Definition own_props (v : value) : list (string * value) :=
  match v with
  | VObj ps => ps
  | VArr items => indexed (fun x => x) 0 items
  | VStr s => indexed (fun c => VStr (String c EmptyString)) 0 (chars s)
  | _ => []
  end.

(** [{...base, ...v}] once [base] has been laid down. *)
Definition spread (base : list (string * value)) (v : value)
  : list (string * value) :=
  fold_left (fun acc kv => set (fst kv) (snd kv) acc) (own_props v) base.

(** [s.split(':').pop()]: what follows the last colon. *)
Fixpoint last_segment_from (acc : string) (s : string) : string :=
  match s with
  | EmptyString => acc
  | String c rest =>
      if Ascii.eqb c ":"%char
      then last_segment_from rest rest
      else last_segment_from acc rest
  end.

Definition split_colon_pop (s : string) : string := last_segment_from s s.

End Js.

(* ------------------------------------------------------------------ *)
(** ** JSON.stringify, the JSON round trip, and base64url.encode

    These are the runtime's and the [base64url] package's, written out on
    the value domain so that a DID can be computed. *)

Module Json.

(** The one-character string holding a double quote. *)
Definition dq : string := String (ascii_of_nat 34) EmptyString.

Definition hex_digit (n : nat) : ascii :=
  match n with
  | 0 => "0" | 1 => "1" | 2 => "2" | 3 => "3" | 4 => "4" | 5 => "5"
  | 6 => "6" | 7 => "7" | 8 => "8" | 9 => "9" | 10 => "a" | 11 => "b"
  | 12 => "c" | 13 => "d" | 14 => "e" | _ => "f"
  end%char.

(** QuoteJSONString, one code unit at a time. *)
Definition escape (c : ascii) : string :=
  let n := nat_of_ascii c in
  if Nat.eqb n 34 then "\" ++ dq
  else if Nat.eqb n 92 then "\\"
  else if Nat.eqb n 8 then "\b"
  else if Nat.eqb n 12 then "\f"
  else if Nat.eqb n 10 then "\n"
  else if Nat.eqb n 13 then "\r"
  else if Nat.eqb n 9 then "\t"
  else if Nat.ltb n 32
       then "\u00" ++ String (hex_digit (n / 16)) (String (hex_digit (n mod 16)) EmptyString)
       else String c EmptyString.

Fixpoint escape_all (s : string) : string :=
  match s with
  | EmptyString => EmptyString
  | String c rest => escape c ++ escape_all rest
  end.

Definition quote (s : string) : string := dq ++ escape_all s ++ dq.

Fixpoint join (sep : string) (parts : list string) : string :=
  match parts with
  | [] => EmptyString
  | [p] => p
  | p :: rest => p ++ sep ++ join sep rest
  end.

(** [JSON.stringify v]; [None] is the [undefined] it answers for
    [undefined] and for functions. *)
Fixpoint stringify (v : value) : option string :=
  match v with
  | VUndefined | VSecureRandom _ => None
  | VNull => Some "null"
  | VBool b => Some (if b then "true" else "false")
  | VStr s => Some (quote s)
  | VObj ps =>
      let members :=
        (fix members (ps : list (string * value)) : list string :=
           match ps with
           | [] => []
           | (k, x) :: rest =>
               match stringify x with
               | None => members rest
               | Some t => (quote k ++ ":" ++ t) :: members rest
               end
           end) ps in
      Some ("{" ++ join "," members ++ "}")
  | VArr items =>
      let elements :=
        (fix elements (xs : list value) : list string :=
           match xs with
           | [] => []
           | x :: rest =>
               match stringify x with
               | None => "null"
               | Some t => t
               end :: elements rest
           end) items in
      Some ("[" ++ join "," elements ++ "]")
  end.

(** [JSON.parse(JSON.stringify v)] on the value domain: properties holding
    [undefined] or a function vanish, such array elements become [null],
    everything else is copied.  [None] where [JSON.stringify] answers
    [undefined]. *)
Fixpoint roundtrip (v : value) : option value :=
  match v with
  | VUndefined | VSecureRandom _ => None
  | VNull => Some VNull
  | VBool b => Some (VBool b)
  | VStr s => Some (VStr s)
  | VObj ps =>
      Some (VObj
        ((fix members (ps : list (string * value)) : list (string * value) :=
            match ps with
            | [] => []
            | (k, x) :: rest =>
                match roundtrip x with
                | None => members rest
                | Some y => (k, y) :: members rest
                end
            end) ps))
  | VArr items =>
      Some (VArr
        ((fix elements (xs : list value) : list value :=
            match xs with
            | [] => []
            | x :: rest =>
                match roundtrip x with
                | None => VNull
                | Some y => y
                end :: elements rest
            end) items))
  end.

End Json.

Module Base64url.

Definition alphabet : string :=
  "ABCDEFGHIJKLMNOPQRSTUVWXYZabcdefghijklmnopqrstuvwxyz0123456789-_".

Definition digit (n : nat) : ascii :=
  match String.get n alphabet with
  | Some c => c
  | None => "_"%char
  end.

(** The UTF-8 bytes of a string of code units below 256. *)
Fixpoint utf8 (s : string) : list nat :=
  match s with
  | EmptyString => []
  | String c rest =>
      let n := nat_of_ascii c in
      if Nat.ltb n 128 then n :: utf8 rest
      else (192 + n / 64) :: (128 + n mod 64) :: utf8 rest
  end.

(** Base64 with the URL alphabet and the padding dropped. *)
Fixpoint encode_bytes (fuel : nat) (bs : list nat) : string :=
  match fuel with
  | 0 => EmptyString
  | S fuel' =>
      match bs with
      | [] => EmptyString
      | [a] =>
          String (digit (a / 4)) (String (digit ((a mod 4) * 16)) EmptyString)
      | [a; b] =>
          String (digit (a / 4))
            (String (digit ((a mod 4) * 16 + b / 16))
               (String (digit ((b mod 16) * 4)) EmptyString))
      | a :: b :: c :: rest =>
          String (digit (a / 4))
            (String (digit ((a mod 4) * 16 + b / 16))
               (String (digit ((b mod 16) * 4 + c / 64))
                  (String (digit (c mod 64)) (encode_bytes fuel' rest))))
      end
  end.

Definition encode (s : string) : string :=
  let bs := utf8 s in encode_bytes (S (List.length bs)) bs.

End Base64url.

(* ------------------------------------------------------------------ *)
(** ** The registry *)

(** The five imported handler modules. *)
Inductive handler : Type := ed25519 | x25519 | secp256k1 | bls12381 | web.

(** The key-pair classes the handler modules export. *)
Inductive keyPairClass : Type :=
| Secp256k1KeyPair
| Ed25519KeyPair
| X25519KeyPair
| Bls12381G1KeyPair
| Bls12381G2KeyPair
| WebCryptoKey.

Definition typeMap : list (string * handler) :=
  [ ("ed25519", ed25519);
    ("x25519", x25519);
    ("secp256k1", secp256k1);
    ("bls12381", bls12381);
    ("secp256r1", web);
    ("secp384r1", web);
    ("secp521r1", web) ].

Definition startsWithMap : list (string * handler) :=
  [ ("did:key:z6Mk", ed25519);
    ("did:key:z6LS", x25519);
    ("did:key:zQ3s", secp256k1);
    ("did:key:z5Tc", bls12381);
    ("did:key:zUC7", bls12381);
    ("did:key:zDna", web);
    ("did:key:z82L", web);
    ("did:key:z2J9", web) ].

Definition noSupportForSeed : list string :=
  ["secp256r1"; "secp384r1"; "secp521r1"].

(** Both tables are object literals, so [table[key]] also answers for the
    names every object inherits from [Object.prototype]; what it answers
    there is a function (for [__proto__], the prototype object), which is
    truthy and has no [generate] or [resolve]. *)
Definition Object_prototype_names : list string :=
  [ "constructor"; "__defineGetter__"; "__defineSetter__"; "hasOwnProperty";
    "__lookupGetter__"; "__lookupSetter__"; "isPrototypeOf";
    "propertyIsEnumerable"; "toString"; "valueOf"; "__proto__";
    "toLocaleString" ].

Inductive property (A : Type) : Type :=
| Own (a : A)      (* an entry of the literal *)
| Inherited        (* found on [Object.prototype] *)
| Missing.         (* [undefined] *)
Arguments Own {A} a.
Arguments Inherited {A}.
Arguments Missing {A}.

Definition includes (xs : list string) (x : string) : bool :=
  existsb (String.eqb x) xs.

(** [(table as any)[key]]. *)
Definition lookup {A : Type} (table : list (string * A)) (key : string)
  : property A :=
  match Js.assoc key table with
  | Some a => Own a
  | None => if includes Object_prototype_names key then Inherited else Missing
  end.

(* ------------------------------------------------------------------ *)
(** ** Calls into the handlers: a trace and an error, threaded together *)

Inductive dispatch : Type :=
| CallGenerate (h : handler) (generateOptions resolutionOptions : value)
| CallResolve (h : handler) (did : string) (resolutionOptions : value).

Definition M (A : Type) : Type := (list dispatch * result A)%type.

Definition ret {A : Type} (a : A) : M A := ([], inr a).

Definition throw {A : Type} (e : error) : M A := ([], inl e).

Definition bind {A B : Type} (m : M A) (f : A -> M B) : M B :=
  match m with
  | (t, inl e) => (t, inl e)
  | (t, inr a) => let (t', r) := f a in ((t ++ t')%list, r)
  end.

Definition lift {A : Type} (r : result A) : M A := ([], r).

Definition trace {A : Type} (m : M A) : list dispatch := fst m.

Definition outcome {A : Type} (m : M A) : result A := snd m.

Declare Scope js_scope.
Delimit Scope js_scope with js.
Notation "x <- m ;; k" := (bind m (fun x => k))
  (at level 61, m at next level, right associativity) : js_scope.
Open Scope js_scope.

(** What a handler answers: a rejection reason or a value. *)
Definition answer (A : Type) : Type := (string + A)%type.

Definition settle {A : Type} (a : answer A) : result A :=
  match a with
  | inl reason => inl (Rejected reason)
  | inr x => inr x
  end.

Record DidResolution : Type := { didDocument : value }.

Record DidGeneration : Type := { keys : list value; gen_didDocument : value }.

(** The argument of [generate2]: the caller's object, whatever fields it
    has, together with the string that its [type] holds. *)
Record Options : Type := {
  object : value;
  type : string;
  typed : Js.get "type" object = inr (VStr type)
}.

(** [options.prop]; the object has a [type], so the read never throws. *)
Definition read (prop : string) (o : Options) : value :=
  match Js.get prop (object o) with
  | inr v => v
  | inl _ => VUndefined
  end.

(** [options.seed] and [options.kid]; an absent field reads [undefined]. *)
Definition seed (o : Options) : value := read "seed" o.

Definition kid (o : Options) : value := read "kid" o.

(** The object [options] itself, as [generate2] hands it on to the
    handler. *)
Definition options_object (o : Options) : value := object o.

(* ------------------------------------------------------------------ *)
(** ** index.ts *)

Module Index.

Definition getOptionsForType (type : string) : result value :=
  if String.eqb type "secp256r1" then
    inr (VObj [("kty", VStr "EC"); ("crvOrSize", VStr "P-256")])
  else if String.eqb type "secp384r1" then
    inr (VObj [("kty", VStr "EC"); ("crvOrSize", VStr "P-384")])
  else if String.eqb type "secp521r1" then
    inr (VObj [("kty", VStr "EC"); ("crvOrSize", VStr "P-521")])
  else inl (Error ("No options for type: " ++ type)).

(** [a.kty === kty && a.crv === crv] on the two fields already read. *)
Definition is_curve (kty crv : value) (kty' crv' : string) : bool :=
  Js.strict_eq kty (VStr kty') && Js.strict_eq crv (VStr crv').

Definition getKeyPairClassFromKey (k : value) : result keyPairClass :=
  match Js.get "type" k with
  | inl e => inl e
  | inr ty =>
      if Js.strict_eq ty (VStr "JsonWebKey2020") then
        match Js.get "publicKeyJwk" k with
        | inl e => inl e
        | inr publicKeyJwk =>
            match Js.get "kty" publicKeyJwk, Js.get "crv" publicKeyJwk with
            | inl e, _ => inl e
            | _, inl e => inl e
            | inr kty, inr crv =>
                if is_curve kty crv "EC" "secp256k1" then inr Secp256k1KeyPair
                else if is_curve kty crv "OKP" "Ed25519" then inr Ed25519KeyPair
                else if is_curve kty crv "OKP" "X25519" then inr X25519KeyPair
                else if is_curve kty crv "EC" "BLS12381_G1" then inr Bls12381G1KeyPair
                else if is_curve kty crv "EC" "BLS12381_G2" then inr Bls12381G2KeyPair
                else inr WebCryptoKey
            end
        end
      else inl (Error "getKeyPairClassFromKey only supports JsonWebKey2020")
  end.

(** When a rejection of one [keys.map] callback is seen: before its first
    [await], after the import it awaits, or after the export it awaits. *)
Inductive stage : Type := Synchronous | AfterImport | AfterExport.

Definition stage_eqb (a b : stage) : bool :=
  match a, b with
  | Synchronous, Synchronous | AfterImport, AfterImport
  | AfterExport, AfterExport => true
  | _, _ => false
  end.

Definition staged (A : Type) : Type := ((stage * error) + A)%type.

Definition at_stage {A : Type} (s : stage) (r : result A) : staged A :=
  match r with
  | inl e => inl (s, e)
  | inr a => inr a
  end.

Fixpoint first_failure {A : Type} (s : stage) (rs : list (staged A))
  : option error :=
  match rs with
  | [] => None
  | inl (s', e) :: rest =>
      if stage_eqb s s' then Some e else first_failure s rest
  | inr _ :: rest => first_failure s rest
  end.

Fixpoint fulfilled {A : Type} (rs : list (staged A)) : list A :=
  match rs with
  | [] => []
  | inr a :: rest => a :: fulfilled rest
  | inl _ :: rest => fulfilled rest
  end.

(** [Promise.all]: it rejects with the rejection it sees first.  The
    callbacks that threw before their first [await] are seen first, in
    index order; among the others the handlers' promises are taken to
    settle in the order they were created. *)
Definition Promise_all {A : Type} (rs : list (staged A)) : result (list A) :=
  match first_failure Synchronous rs with
  | Some e => inl e
  | None =>
      match first_failure AfterImport rs with
      | Some e => inl e
      | None =>
          match first_failure AfterExport rs with
          | Some e => inl e
          | None => inr (fulfilled rs)
          end
      end
  end.

(** [items.find((v) => v.id === k.id)]. *)
Fixpoint find_by_id (k : value) (items : list value) : result value :=
  match items with
  | [] => inr VUndefined
  | v :: rest =>
      match Js.get "id" v, Js.get "id" k with
      | inl e, _ => inl e
      | _, inl e => inl e
      | inr vid, inr kid =>
          if Js.strict_eq vid kid then inr v else find_by_id k rest
      end
  end.

(** [r.didDocument.verificationMethod], about to receive [.find]. *)
Definition verificationMethod (r : DidResolution) : result (list value) :=
  match Js.get "verificationMethod" (didDocument r) with
  | inl e => inl e
  | inr (VArr items) => inr items
  | inr VUndefined | inr VNull => inl (TypeErrorRead "find")
  | inr _ => inl (TypeErrorCall "find")
  end.

Definition find_verificationMethod (r : DidResolution) (k : value)
  : result value :=
  match verificationMethod r with
  | inl e => inl e
  | inr items => find_by_id k items
  end.

(** [controller.split(':').pop()]. *)
Definition split_pop (controller : value) : result value :=
  match controller with
  | VStr s => inr (VStr (Js.split_colon_pop s))
  | VUndefined | VNull => inl (TypeErrorRead "split")
  | _ => inl (TypeErrorCall "split")
  end.

Section Core.

(** The instances the key-pair classes build. *)
Variable instance : Type.

Variable handler_generate : handler -> value -> value -> answer DidGeneration.
Variable handler_resolve : handler -> string -> value -> answer DidResolution.
Variable KeyPair_from : keyPairClass -> value -> answer instance.
Variable KeyPair_export : instance -> value -> answer value.

Definition call_generate (h : handler) (generateOptions resolutionOptions : value)
  : M DidGeneration :=
  ([CallGenerate h generateOptions resolutionOptions],
   settle (handler_generate h generateOptions resolutionOptions)).

Definition call_resolve (h : handler) (did : string) (resolutionOptions : value)
  : M DidResolution :=
  ([CallResolve h did resolutionOptions],
   settle (handler_resolve h did resolutionOptions)).

Definition generate (type : string) (generateOptions resolutionOptions : value)
  : M DidGeneration :=
  match lookup typeMap type with
  | Missing => throw (Error ("did-key.js does not support: " ++ type))
  | found =>
      correctOptions <-
        (if includes noSupportForSeed type
         then lift (getOptionsForType type)
         else ret generateOptions) ;;
      match found with
      | Own h => call_generate h correctOptions resolutionOptions
      | _ => throw (TypeErrorCall "generate")
      end
  end.

Definition resolve (did : string) (resolutionOptions : value)
  : M DidResolution :=
  let startsWith := String.substring 0 12 did in
  match lookup startsWithMap startsWith with
  | Missing =>
      throw (Error ("did-key.js does not support: " ++ startsWith ++ "..."))
  | Own h => call_resolve h did resolutionOptions
  | Inherited => throw (TypeErrorCall "resolve")
  end.

(** [resolve(v, ro)] where [v] is whatever [keys[0].controller] held. *)
Definition resolve_value (did : value) (resolutionOptions : value)
  : M DidResolution :=
  match did with
  | VStr s => resolve s resolutionOptions
  | VUndefined | VNull => throw (TypeErrorRead "substring")
  | _ => throw (TypeErrorCall "substring")
  end.

(** [options.kid || publicKeyJwk.kid || keys[0].controller.split(':').pop()] *)
Definition choose_kid (options_kid publicKeyJwk key0 : value) : result value :=
  if Js.truthy options_kid then inr options_kid
  else
    match Js.get "kid" publicKeyJwk with
    | inl e => inl e
    | inr jwk_kid =>
        if Js.truthy jwk_kid then inr jwk_kid
        else
          match Js.get "controller" key0 with
          | inl e => inl e
          | inr controller => split_pop controller
          end
    end.

(** [`did:jwk:${base64url.encode(JSON.stringify(jwk))}`]; [jwk] is an
    object, for which [JSON.stringify] always answers a string. *)
Definition did_of_jwk (jwk : value) : result string :=
  match Json.stringify jwk with
  | Some json => inr ("did:jwk:" ++ Base64url.encode json)
  | None => inl (TypeErrorRead "length")
  end.

Definition newDoc_of (did didUrl : string) (jwk : value) : value :=
  VObj
    [ ("id", VStr did);
      ("verificationMethod",
        VArr [ VObj [ ("id", VStr didUrl);
                      ("type", VStr "JsonWebKey2020");
                      ("controller", VStr did);
                      ("publicKeyJwk", jwk) ] ]);
      ("authentication", VArr [VStr didUrl]);
      ("capabilityInvocation", VArr [VStr didUrl]);
      ("capabilityDelegation", VArr [VStr didUrl]);
      ("keyAgreement", VArr [VStr didUrl]) ].

(** [JSON.parse(JSON.stringify(newDoc))]; [newDoc] is an object. *)
Definition parse_stringify (newDoc : value) : result value :=
  match Json.roundtrip newDoc with
  | Some copy => inr copy
  | None => inl (Error "Unexpected token u in JSON at position 0")
  end.

Definition generate2 (options : Options) : M DidGeneration :=
  generated <-
    generate (type options)
      (VObj [("secureRandom", VSecureRandom (seed options))])
      (options_object options) ;;
  let keys := keys generated in
  let key := hd VUndefined keys in
  publicKeyJwk <- lift (Js.get "publicKeyJwk" key) ;;
  kid <- lift (choose_kid (kid options) publicKeyJwk (nth 0 keys VUndefined)) ;;
  let jwk := VObj (Js.spread [("kid", kid)] publicKeyJwk) in
  did <- lift (did_of_jwk jwk) ;;
  let didUrl := did in
  let newDoc := newDoc_of did didUrl jwk in
  let newKeys :=
    map (fun k => VObj (Js.spread [("id", VStr didUrl); ("controller", VStr did)] k))
        [key] in
  copy <- lift (parse_stringify newDoc) ;;
  ret {| keys := newKeys; gen_didDocument := copy |}.

(** One callback of [keys.map] in [convert]. *)
Definition convert_key (oldRepresentation newRepresentation : DidResolution)
  (k : value) : staged value :=
  match find_verificationMethod newRepresentation k with
  | inl e => inl (Synchronous, e)
  | inr vm =>
      match find_verificationMethod oldRepresentation k with
      | inl e => inl (Synchronous, e)
      | inr vmAsJson =>
          match getKeyPairClassFromKey vmAsJson with
          | inl e => inl (Synchronous, e)
          | inr KeyPair =>
              match settle (KeyPair_from KeyPair k) with
              | inl e => inl (AfterImport, e)
              | inr k1 =>
                  match Js.get "type" vm with
                  | inl e => inl (AfterImport, e)
                  | inr vm_type =>
                      at_stage AfterExport
                        (settle
                           (KeyPair_export k1
                              (VObj [("type", vm_type);
                                     ("privateKey", VBool true)])))
                  end
              end
          end
      end
  end.

Definition did_json : value := VObj [("accept", VStr "application/did+json")].

Definition convert (keys : list value) (resolutionOptions : value)
  : M DidGeneration :=
  controller <- lift (Js.get "controller" (nth 0 keys VUndefined)) ;;
  oldRepresentation <- resolve_value controller did_json ;;
  newRepresentation <- resolve_value controller resolutionOptions ;;
  converted <-
    lift (Promise_all (map (convert_key oldRepresentation newRepresentation) keys)) ;;
  ret {| keys := converted; gen_didDocument := didDocument newRepresentation |}.

End Core.

End Index.
Import Index.

(* ------------------------------------------------------------------ *)
(** ** Vocabulary of the statements *)

(** The call [generate2] makes into the dispatcher. *)
Definition seeded_generate
  (handler_generate : handler -> value -> value -> answer DidGeneration)
  (o : Options) : M DidGeneration :=
  Index.generate handler_generate (type o)
    (VObj [("secureRandom", VSecureRandom (seed o))]) (options_object o).

Fixpoint no_colon (s : string) : bool :=
  match s with
  | EmptyString => true
  | String c rest => negb (Ascii.eqb c ":"%char) && no_colon rest
  end.

(** Whether a failure is one that index.ts raises itself, with
    [throw new Error(...)]; the others come from the runtime or from a
    handler. *)
Definition raised_by_throw (e : error) : bool :=
  match e with
  | Error _ => true
  | _ => false
  end.

(** No ['#'] in the string: a DID with no fragment. *)
Fixpoint no_fragment (s : string) : bool :=
  match s with
  | EmptyString => true
  | String c rest => negb (Ascii.eqb c "#"%char) && no_fragment rest
  end.

(** The names of the own properties of an object, without repetition. *)
Definition plain_object (v : value) : Prop :=
  match v with
  | VObj ps => NoDup (map fst ps)
  | _ => False
  end.

(** Modelled from the spec: the DID prefixes that belong to each KeyType
    (section 3, every KeyType maps to a handler and, for resolution, to a
    fixed 12-character prefix).  index.ts registers the prefixes without
    saying which type each one belongs to; the pairing is that of the
    multicodec headers of the did:key method, [bls12381] owning the two
    BLS12-381 headers that index.ts registers. *)
Definition prefixesOfType (type : string) : list string :=
  if String.eqb type "ed25519" then ["did:key:z6Mk"]
  else if String.eqb type "x25519" then ["did:key:z6LS"]
  else if String.eqb type "secp256k1" then ["did:key:zQ3s"]
  else if String.eqb type "bls12381" then ["did:key:z5Tc"; "did:key:zUC7"]
  else if String.eqb type "secp256r1" then ["did:key:zDna"]
  else if String.eqb type "secp384r1" then ["did:key:z82L"]
  else if String.eqb type "secp521r1" then ["did:key:z2J9"]
  else [].

(* ------------------------------------------------------------------ *)
(** ** A concrete world of handlers, for running the code *)

Module Fixture.

Definition did_key : string := "did:key:z6MkhaXg".

Definition publicKeyJwk : value :=
  VObj [("kty", VStr "OKP"); ("crv", VStr "Ed25519"); ("x", VStr "Lm_M42cB")].

Definition privateKeyJwk : value :=
  VObj [("kty", VStr "OKP"); ("crv", VStr "Ed25519"); ("x", VStr "Lm_M42cB");
        ("d", VStr "nWGxne_9")].

Definition key_id : string := did_key ++ "#z6MkhaXg".

Definition key : value :=
  VObj [("id", VStr key_id); ("type", VStr "JsonWebKey2020");
        ("controller", VStr did_key);
        ("publicKeyJwk", publicKeyJwk); ("privateKeyJwk", privateKeyJwk)].

Definition json_document : value :=
  VObj [("id", VStr did_key);
        ("verificationMethod",
          VArr [VObj [("id", VStr key_id); ("type", VStr "JsonWebKey2020");
                      ("controller", VStr did_key);
                      ("publicKeyJwk", publicKeyJwk)]])].

Definition ld_document : value :=
  VObj [("id", VStr did_key);
        ("verificationMethod",
          VArr [VObj [("id", VStr key_id);
                      ("type", VStr "Ed25519VerificationKey2018");
                      ("controller", VStr did_key);
                      ("publicKeyBase58", VStr "4zvwRjXU")]])].

Definition did_ld_json : value :=
  VObj [("accept", VStr "application/did+ld+json")].

Definition wants_json (resolutionOptions : value) : bool :=
  match Js.get "accept" resolutionOptions with
  | inr accept => Js.strict_eq accept (VStr "application/did+json")
  | inl _ => false
  end.

Definition handler_generate (h : handler) (generateOptions resolutionOptions : value)
  : answer DidGeneration :=
  inr {| keys := [key]; gen_didDocument := json_document |}.

Definition handler_resolve (h : handler) (did : string) (resolutionOptions : value)
  : answer DidResolution :=
  inr {| didDocument :=
           if wants_json resolutionOptions then json_document else ld_document |}.

(** An instance remembers its class and the key it was built from. *)
Definition instance : Type := (keyPairClass * value)%type.

Definition KeyPair_from (c : keyPairClass) (k : value) : answer instance :=
  inr (c, k).

Definition KeyPair_export (i : instance) (options : value) : answer value :=
  match Js.get "type" options with
  | inr ty => inr (VObj (Js.set "type" ty (Js.own_props (snd i))))
  | inl _ => inl "export: no options"
  end.

Definition options : Options :=
  {| object := VObj [("type", VStr "ed25519"); ("seed", VStr "00000000")];
     type := "ed25519"; typed := eq_refl |}.

(** The same call with an empty string for [kid]. *)
Definition options_empty_kid : Options :=
  {| object := VObj [("type", VStr "ed25519"); ("seed", VStr "00000000");
                     ("kid", VStr EmptyString)];
     type := "ed25519"; typed := eq_refl |}.

(** The DID that [generate2] computes from [key] when it falls back on
    the last segment of the controller. *)
Definition did_jwk : string :=
  "did:jwk:eyJraWQiOiJ6Nk1raGFYZyIsImt0eSI6Ik9LUCIsImNydiI6IkVkMjU1MTkiLCJ4IjoiTG1fTTQyY0IifQ".

(** A handler that answers without any key. *)
Definition handler_generate_no_keys
  (h : handler) (generateOptions resolutionOptions : value)
  : answer DidGeneration :=
  inr {| keys := []; gen_didDocument := json_document |}.

(** What [generate2] answers on [options] with these handlers. *)
Definition generation : DidGeneration :=
  Eval vm_compute in
    match outcome (Index.generate2 handler_generate options) with
    | inr g => g
    | inl _ => {| keys := []; gen_didDocument := VUndefined |}
    end.

(** A resolver whose linked-data document names its verification method
    differently, and a key-pair class that refuses every key. *)
Definition ld_document_renamed : value :=
  VObj [("id", VStr did_key);
        ("verificationMethod",
          VArr [VObj [("id", VStr (did_key ++ "#key-1"));
                      ("type", VStr "Ed25519VerificationKey2018");
                      ("controller", VStr did_key);
                      ("publicKeyBase58", VStr "4zvwRjXU")]])].

Definition handler_resolve_renamed
  (h : handler) (did : string) (resolutionOptions : value)
  : answer DidResolution :=
  inr {| didDocument :=
           if wants_json resolutionOptions then json_document
           else ld_document_renamed |}.

Definition KeyPair_from_refusing (c : keyPairClass) (k : value)
  : answer instance :=
  inl "unsupported key".

(** A second key, of another DID. *)
Definition other_key : value :=
  VObj [("id", VStr "did:key:z6LSother#z6LSother");
        ("type", VStr "JsonWebKey2020");
        ("controller", VStr "did:key:z6LSother");
        ("publicKeyJwk", publicKeyJwk); ("privateKeyJwk", privateKeyJwk)].

(** A handler that answers with two keys, and one whose key differs from
    [key] in its private part and in its [id]. *)
Definition handler_generate_two_keys
  (h : handler) (generateOptions resolutionOptions : value)
  : answer DidGeneration :=
  inr {| keys := [key; other_key]; gen_didDocument := ld_document |}.

Definition key_other_private : value :=
  VObj [("id", VStr (did_key ++ "#key-2")); ("type", VStr "JsonWebKey2020");
        ("controller", VStr did_key);
        ("publicKeyJwk", publicKeyJwk);
        ("privateKeyJwk", VObj [("kty", VStr "OKP"); ("d", VStr "AAAAAAAA")])].

Definition handler_generate_other_private
  (h : handler) (generateOptions resolutionOptions : value)
  : answer DidGeneration :=
  inr {| keys := [key_other_private]; gen_didDocument := json_document |}.

(** A Linked-Data key, which has no [publicKeyJwk]. *)
Definition ld_key : value :=
  VObj [("id", VStr key_id); ("type", VStr "Ed25519VerificationKey2018");
        ("controller", VStr did_key);
        ("publicKeyBase58", VStr "4zvwRjXU");
        ("privateKeyBase58", VStr "5Kd3NBUA")].

Definition handler_generate_ld
  (h : handler) (generateOptions resolutionOptions : value)
  : answer DidGeneration :=
  inr {| keys := [ld_key]; gen_didDocument := ld_document |}.

(** A key whose public JWK has a [kid] of its own, and a call that asks
    for another one. *)
Definition publicKeyJwk_with_kid : list (string * value) :=
  [("kty", VStr "OKP"); ("crv", VStr "Ed25519"); ("x", VStr "Lm_M42cB");
   ("kid", VStr "key-of-the-jwk")].

Definition key_with_kid : value :=
  VObj [("id", VStr key_id); ("type", VStr "JsonWebKey2020");
        ("controller", VStr did_key);
        ("publicKeyJwk", VObj publicKeyJwk_with_kid)].

Definition handler_generate_with_kid
  (h : handler) (generateOptions resolutionOptions : value)
  : answer DidGeneration :=
  inr {| keys := [key_with_kid]; gen_didDocument := json_document |}.

Definition options_with_kid : Options :=
  {| object := VObj [("type", VStr "ed25519"); ("seed", VStr "00000000");
                     ("kid", VStr "asked-for")];
     type := "ed25519"; typed := eq_refl |}.

Definition generation_with_kid : DidGeneration :=
  Eval vm_compute in
    match outcome (Index.generate2 handler_generate_with_kid options_with_kid) with
    | inr g => g
    | inl _ => {| keys := []; gen_didDocument := VUndefined |}
    end.

Definition generation_other_private : DidGeneration :=
  Eval vm_compute in
    match outcome (Index.generate2 handler_generate_other_private options) with
    | inr g => g
    | inl _ => {| keys := []; gen_didDocument := VUndefined |}
    end.

(** A call for a NIST curve that also asks for a representation. *)
Definition options_p256 : Options :=
  {| object := VObj [("type", VStr "secp256r1"); ("seed", VStr "00000000");
                     ("accept", VStr "application/did+json")];
     type := "secp256r1"; typed := eq_refl |}.

(** A handler whose list of keys starts with [null]. *)
Definition handler_generate_null_first
  (h : handler) (generateOptions resolutionOptions : value)
  : answer DidGeneration :=
  inr {| keys := [VNull; key]; gen_didDocument := json_document |}.

(** What [convert] answers on [key] for the linked-data representation. *)
Definition conversion : DidGeneration :=
  Eval vm_compute in
    match outcome (Index.convert instance handler_resolve KeyPair_from
                     KeyPair_export [key] did_ld_json) with
    | inr g => g
    | inl _ => {| keys := []; gen_didDocument := VUndefined |}
    end.

End Fixture.

(* ------------------------------------------------------------------ *)
(** ** The encoders on known values *)

Example base64url_Man : Base64url.encode "Man" = "TWFu".
Proof. reflexivity. Qed.

Example base64url_Ma : Base64url.encode "Ma" = "TWE".
Proof. reflexivity. Qed.

Example base64url_M : Base64url.encode "M" = "TQ".
Proof. reflexivity. Qed.

Example stringify_kid :
  Json.stringify
    (VObj [("kid", VStr "a"); ("u", VUndefined); ("xs", VArr [VUndefined; VBool true])])
  = Some ("{" ++ Json.quote "kid" ++ ":" ++ Json.quote "a" ++ ","
              ++ Json.quote "xs" ++ ":[null,true]}").
Proof. reflexivity. Qed.

Example base64url_kid_header :
  String.substring 0 10
    (Base64url.encode ("{" ++ Json.quote "kid" ++ ":" ++ Json.quote "a" ++ "}"))
  = "eyJraWQiOi".
Proof. reflexivity. Qed.

(* ------------------------------------------------------------------ *)
(** ** Properties of the dispatcher and of the classifier *)

Lemma outcome_bind_inl {A B : Type} (m : M A) (f : A -> M B) (e : error) :
  outcome m = inl e -> outcome (bind m f) = inl e.
Proof.
  destruct m as [t [e'|a]]; cbn; intros H; congruence.
Qed.

Lemma outcome_bind_inr {A B : Type} (m : M A) (f : A -> M B) (a : A) :
  outcome m = inr a -> outcome (bind m f) = outcome (f a).
Proof.
  destruct m as [t [e'|a']]; cbn; intros H; [discriminate|].
  injection H as ->. destruct (f a); reflexivity.
Qed.

Lemma trace_bind_inr {A B : Type} (m : M A) (f : A -> M B) (a : A) :
  outcome m = inr a -> trace (bind m f) = (trace m ++ trace (f a))%list.
Proof.
  destruct m as [t [e'|a']]; cbn; intros H; [discriminate|].
  injection H as ->. destruct (f a); reflexivity.
Qed.

Lemma trace_bind_inl {A B : Type} (m : M A) (f : A -> M B) (e : error) :
  outcome m = inl e -> trace (bind m f) = trace m.
Proof.
  destruct m as [t [e'|a]]; cbn; intros H; [reflexivity | discriminate].
Qed.

Lemma bind_lift_inr {A B : Type} (a : A) (f : A -> M B) :
  bind (lift (inr a)) f = f a.
Proof. unfold bind, lift. destruct (f a); reflexivity. Qed.

Lemma bind_lift_inl {A B : Type} (e : error) (f : A -> M B) :
  bind (lift (inl e)) f = throw e.
Proof. reflexivity. Qed.

(** Case analysis on the string comparisons of a table lookup. *)
Ltac string_cases H :=
  repeat match type of H with
    | context [String.eqb ?a ?b] =>
        destruct (String.eqb_spec a b); [subst|]; cbv iota in H
    end.

Lemma registered_types (type : string) (h : handler) :
  Js.assoc type typeMap = Some h ->
  (type, h) = ("ed25519", ed25519) \/ (type, h) = ("x25519", x25519) \/
  (type, h) = ("secp256k1", secp256k1) \/ (type, h) = ("bls12381", bls12381) \/
  (type, h) = ("secp256r1", web) \/ (type, h) = ("secp384r1", web) \/
  (type, h) = ("secp521r1", web).
Proof.
  unfold typeMap; cbn [Js.assoc]. intros H.
  string_cases H; try discriminate; injection H as <-; tauto.
Qed.

Lemma registered_prefixes (p : string) (h : handler) :
  Js.assoc p startsWithMap = Some h ->
  In (p, h) startsWithMap.
Proof.
  unfold startsWithMap; cbn [Js.assoc In]. intros H.
  string_cases H; try discriminate; injection H as <-; tauto.
Qed.

Lemma unregistered_prefixes (p : string) :
  Js.assoc p startsWithMap = None ->
  forall h, ~ In (p, h) startsWithMap.
Proof.
  unfold startsWithMap; cbn [Js.assoc In]. intros H h Hin.
  string_cases H; try discriminate.
  repeat (destruct Hin as [Hin|Hin]; [injection Hin as ? ?; congruence|]).
  destruct Hin.
Qed.

Lemma startsWithMap_functional (p : string) (h h' : handler) :
  In (p, h) startsWithMap -> In (p, h') startsWithMap -> h = h'.
Proof.
  unfold startsWithMap; cbn [In]. intros H H'.
  repeat (destruct H as [H|H]; [injection H as <- <-|]); try destruct H;
    repeat (destruct H' as [H'|H']; [try discriminate; injection H' as <-|]);
    try destruct H'; reflexivity.
Qed.

Section Dispatcher.

Variable handler_generate : handler -> value -> value -> answer DidGeneration.
Variable handler_resolve : handler -> string -> value -> answer DidResolution.

Local Abbreviation generate := (Index.generate handler_generate).
Local Abbreviation call_generate := (Index.call_generate handler_generate).
Local Abbreviation resolve := (Index.resolve handler_resolve).
Local Abbreviation call_resolve := (Index.call_resolve handler_resolve).

(** C3.  For the three NIST types [generate] drops the caller's options
    and calls the web handler with the fixed descriptor [{kty: 'EC',
    crvOrSize: 'P-256' | 'P-384' | 'P-521'}]; for every other registered
    type it calls the registered handler with the caller's options as they
    are.  The call and its arguments are what the trace of [call_generate]
    records. *)
Theorem generate_options_policy (opts ro : value) :
  generate "secp256r1" opts ro
    = call_generate web (VObj [("kty", VStr "EC"); ("crvOrSize", VStr "P-256")]) ro
  /\ generate "secp384r1" opts ro
    = call_generate web (VObj [("kty", VStr "EC"); ("crvOrSize", VStr "P-384")]) ro
  /\ generate "secp521r1" opts ro
    = call_generate web (VObj [("kty", VStr "EC"); ("crvOrSize", VStr "P-521")]) ro
  /\ forall (type : string) (h : handler),
       Js.assoc type typeMap = Some h ->
       type <> "secp256r1" -> type <> "secp384r1" -> type <> "secp521r1" ->
       generate type opts ro = call_generate h opts ro.
Proof.
  repeat split; try reflexivity.
  intros type h Hreg H1 H2 H3.
  destruct (registered_types type h Hreg)
    as [E|[E|[E|[E|[E|[E|E]]]]]]; injection E as -> ->;
    solve [reflexivity | contradiction].
Qed.

(** X4.  What [resolve] does with a DID whose first 12 characters are not a
    name inherited from [Object.prototype]: it throws the unsupported-prefix
    error exactly when those characters are not one of the eight registered
    prefixes, and otherwise hands the whole DID and the options to the
    handler registered for them. *)
Lemma resolve_dispatch (did : string) (ro : value) :
  includes Object_prototype_names (String.substring 0 12 did) = false ->
  (forall h, In (String.substring 0 12 did, h) startsWithMap ->
             resolve did ro = call_resolve h did ro)
  /\ ((forall h, ~ In (String.substring 0 12 did, h) startsWithMap) ->
      resolve did ro
      = throw (Error ("did-key.js does not support: "
                        ++ String.substring 0 12 did ++ "...")))
  /\ (outcome (resolve did ro)
      = inl (Error ("did-key.js does not support: "
                      ++ String.substring 0 12 did ++ "...")) ->
      forall h, ~ In (String.substring 0 12 did, h) startsWithMap).
Proof.
  intros Hproto. unfold Index.resolve, lookup. rewrite Hproto.
  set (p := String.substring 0 12 did) in *.
  destruct (Js.assoc p startsWithMap) as [h0|] eqn:Hassoc.
  - pose proof (registered_prefixes p h0 Hassoc) as Hin0.
    repeat split.
    + intros h Hin.
      rewrite (startsWithMap_functional p h h0 Hin Hin0). reflexivity.
    + intros Hnone. exfalso. exact (Hnone h0 Hin0).
    + unfold Index.call_resolve, outcome; cbn [snd].
      destruct (handler_resolve h0 did ro); discriminate.
  - pose proof (unregistered_prefixes p Hassoc) as Hnone.
    repeat split.
    + intros h Hin. exfalso. exact (Hnone h Hin).
    + intros _. exact Hnone.
Qed.

(** C4.  On the DID ['toString'] the first 12 characters are the whole
    string, which is none of the eight registered prefixes; [resolve] does
    fail, but no handler is called and the failure is the TypeError of
    calling the missing [resolve] of an inherited function, not the
    unsupported-prefix error. *)
Theorem resolve_inherited_name (ro : value) :
  String.substring 0 12 "toString" = "toString"
  /\ (forall h, ~ In ("toString", h) startsWithMap)
  /\ resolve "toString" ro = ([], inl (TypeErrorCall "resolve"))
  /\ outcome (resolve "toString" ro)
     <> inl (Error "did-key.js does not support: toString...").
Proof.
  repeat split; try discriminate.
  intros h Hin. unfold startsWithMap in Hin; simpl in Hin.
  repeat (destruct Hin as [Hin|Hin]; [discriminate|]). destruct Hin.
Qed.

(** C9.  For every registered KeyType, the handler the type table gives
    to [generate] is the handler the prefix table gives to [resolve] for
    each 12-character prefix of that type: a DID that starts with such a
    prefix is resolved by the handler that generates for the type. *)
Theorem registry_round_trip (type : string) (h : handler) (p : string) :
  Js.assoc type typeMap = Some h ->
  In p (prefixesOfType type) ->
  Js.assoc p startsWithMap = Some h
  /\ String.length p = 12
  /\ (forall go ro, exists go', generate type go ro = call_generate h go' ro)
  /\ (forall did ro, String.substring 0 12 did = p ->
                     resolve did ro = call_resolve h did ro).
Proof.
  intros Hreg Hin.
  destruct (registered_types type h Hreg)
    as [E|[E|[E|[E|[E|[E|E]]]]]]; injection E as -> ->;
    vm_compute in Hin;
    repeat (destruct Hin as [Hin|Hin]; [subst p|]); try destruct Hin;
    (split; [reflexivity|]); (split; [reflexivity|]);
    (split; [intros go ro; eexists; reflexivity|]);
    intros did ro Hsub; unfold Index.resolve; rewrite Hsub; reflexivity.
Qed.

End Dispatcher.

Lemma strict_eq_str (v : value) (s : string) :
  Js.strict_eq v (VStr s) = true <-> v = VStr s.
Proof.
  destruct v; simpl; split; intros H; try discriminate.
  - apply String.eqb_eq in H. now subst.
  - injection H as ->. apply String.eqb_refl.
Qed.

Lemma is_curve_true (kty crv : value) (a b : string) :
  is_curve kty crv a b = true <-> (kty, crv) = (VStr a, VStr b).
Proof.
  unfold is_curve. rewrite Bool.andb_true_iff, !strict_eq_str.
  split; [intros [-> ->]; reflexivity | intros H; injection H as -> ->; auto].
Qed.

Lemma is_curve_false (kty crv : value) (a b : string) :
  (kty, crv) <> (VStr a, VStr b) -> is_curve kty crv a b = false.
Proof.
  intros H. destruct (is_curve kty crv a b) eqn:E; [|reflexivity].
  apply is_curve_true in E. contradiction.
Qed.

(** C5.  A verification method whose [type] is not ['JsonWebKey2020'] makes
    the classifier fail.  One whose [type] is ['JsonWebKey2020'] and whose
    [publicKeyJwk] has the fields [kty] and [crv] is classified by the pair:
    the five listed pairs give their own key-pair class, every other pair
    gives the web-crypto class and no failure. *)
Theorem classifier_table (k : value) :
  (Js.get "type" k <> inr (VStr "JsonWebKey2020") ->
   exists e, getKeyPairClassFromKey k = inl e)
  /\ (forall publicKeyJwk kty crv,
        Js.get "type" k = inr (VStr "JsonWebKey2020") ->
        Js.get "publicKeyJwk" k = inr publicKeyJwk ->
        Js.get "kty" publicKeyJwk = inr kty ->
        Js.get "crv" publicKeyJwk = inr crv ->
        ((kty, crv) = (VStr "EC", VStr "secp256k1") ->
         getKeyPairClassFromKey k = inr Secp256k1KeyPair)
        /\ ((kty, crv) = (VStr "OKP", VStr "Ed25519") ->
            getKeyPairClassFromKey k = inr Ed25519KeyPair)
        /\ ((kty, crv) = (VStr "OKP", VStr "X25519") ->
            getKeyPairClassFromKey k = inr X25519KeyPair)
        /\ ((kty, crv) = (VStr "EC", VStr "BLS12381_G1") ->
            getKeyPairClassFromKey k = inr Bls12381G1KeyPair)
        /\ ((kty, crv) = (VStr "EC", VStr "BLS12381_G2") ->
            getKeyPairClassFromKey k = inr Bls12381G2KeyPair)
        /\ ((kty, crv) <> (VStr "EC", VStr "secp256k1") ->
            (kty, crv) <> (VStr "OKP", VStr "Ed25519") ->
            (kty, crv) <> (VStr "OKP", VStr "X25519") ->
            (kty, crv) <> (VStr "EC", VStr "BLS12381_G1") ->
            (kty, crv) <> (VStr "EC", VStr "BLS12381_G2") ->
            getKeyPairClassFromKey k = inr WebCryptoKey)).
Proof.
  split.
  - intros Hty. unfold getKeyPairClassFromKey.
    destruct (Js.get "type" k) as [e|ty]; [eexists; reflexivity|].
    destruct (Js.strict_eq ty (VStr "JsonWebKey2020")) eqn:E.
    + apply strict_eq_str in E. subst ty. contradiction.
    + eexists; reflexivity.
  - intros publicKeyJwk kty crv Hty Hpk Hkty Hcrv.
    unfold getKeyPairClassFromKey. rewrite Hty, Hpk, Hkty, Hcrv.
    replace (Js.strict_eq (VStr "JsonWebKey2020") (VStr "JsonWebKey2020"))
      with true by reflexivity.
    repeat split.
    1-5: intros H; injection H as -> ->; reflexivity.
    intros H1 H2 H3 H4 H5.
    rewrite !is_curve_false by assumption. reflexivity.
Qed.

(* ------------------------------------------------------------------ *)
(** ** Properties of the did:jwk synthesizer *)

Lemma nth0_hd {A : Type} (l : list A) (d : A) : nth 0 l d = hd d l.
Proof. destruct l; reflexivity. Qed.

(** [generate2] builds its document from an object, which the JSON round
    trip copies field by field. *)
Lemma parse_stringify_newDoc (did : string) (props : list (string * value)) :
  exists jwk,
    parse_stringify (newDoc_of did did (VObj props))
    = inr (VObj
        [ ("id", VStr did);
          ("verificationMethod",
            VArr [ VObj [ ("id", VStr did);
                          ("type", VStr "JsonWebKey2020");
                          ("controller", VStr did);
                          ("publicKeyJwk", jwk) ] ]);
          ("authentication", VArr [VStr did]);
          ("capabilityInvocation", VArr [VStr did]);
          ("capabilityDelegation", VArr [VStr did]);
          ("keyAgreement", VArr [VStr did]) ]).
Proof.
  unfold parse_stringify, newDoc_of. cbn. eexists. reflexivity.
Qed.

Lemma did_of_jwk_object (props : list (string * value)) :
  exists json,
    Json.stringify (VObj props) = Some json
    /\ did_of_jwk (VObj props) = inr ("did:jwk:" ++ Base64url.encode json).
Proof.
  unfold did_of_jwk. cbn. eexists. split; reflexivity.
Qed.

Lemma last_segment_from_spec (s acc : string) :
  (no_colon s = true /\ Js.last_segment_from acc s = acc)
  \/ (exists before after,
        s = before ++ ":" ++ after /\ no_colon after = true
        /\ Js.last_segment_from acc s = after).
Proof.
  revert acc. induction s as [|c rest IH]; intros acc; simpl.
  - left. split; reflexivity.
  - destruct (Ascii.eqb_spec c ":"%char) as [->|Hc]; simpl.
    + right. destruct (IH rest) as [[Hno Heq]|(before & after & Hs & Hno & Heq)].
      * exists EmptyString, rest. rewrite Heq. repeat split; assumption.
      * exists (String ":" before), after. rewrite Hs at 1. repeat split; assumption.
    + destruct (IH acc) as [[Hno Heq]|(before & after & Hs & Hno & Heq)].
      * left. split; assumption.
      * right. exists (String c before), after. rewrite Hs at 1.
        repeat split; assumption.
Qed.

(** X14.  [s.split(':').pop()] is the part of [s] after its last colon, or [s]
    itself when it has none. *)
Lemma split_colon_pop_spec (s : string) :
  no_colon (Js.split_colon_pop s) = true
  /\ (Js.split_colon_pop s = s
      \/ exists before, s = before ++ ":" ++ Js.split_colon_pop s).
Proof.
  unfold Js.split_colon_pop.
  destruct (last_segment_from_spec s s)
    as [[Hno Heq]|(before & after & Hs & Hno & Heq)]; rewrite Heq.
  - split; [assumption | left; reflexivity].
  - split; [assumption | right; exists before; assumption].
Qed.

Lemma digit_no_fragment (n : nat) :
  Ascii.eqb (Base64url.digit n) "#"%char = false.
Proof.
  unfold Base64url.digit, Base64url.alphabet.
  do 64 (destruct n as [|n]; [reflexivity|]). reflexivity.
Qed.

Lemma encode_bytes_no_fragment (fuel : nat) (bs : list nat) :
  no_fragment (Base64url.encode_bytes fuel bs) = true.
Proof.
  revert bs. induction fuel as [|fuel IH]; intros bs; [reflexivity|].
  destruct bs as [|a [|b [|c rest]]];
    cbn [Base64url.encode_bytes no_fragment];
    rewrite ?digit_no_fragment; cbn [negb andb]; auto.
Qed.

(** A did:jwk DID has no fragment. *)
Lemma did_jwk_no_fragment (json : string) :
  no_fragment ("did:jwk:" ++ Base64url.encode json) = true.
Proof.
  unfold Base64url.encode. cbn [append no_fragment].
  replace (Ascii.eqb "d" "#") with false by reflexivity.
  replace (Ascii.eqb "i" "#") with false by reflexivity.
  replace (Ascii.eqb ":" "#") with false by reflexivity.
  replace (Ascii.eqb "j" "#") with false by reflexivity.
  replace (Ascii.eqb "w" "#") with false by reflexivity.
  replace (Ascii.eqb "k" "#") with false by reflexivity.
  cbn [negb andb]. apply encode_bytes_no_fragment.
Qed.

Lemma assoc_set_same (k : string) (v : value) (ps : list (string * value)) :
  Js.assoc k (Js.set k v ps) = Some v.
Proof.
  induction ps as [|[k' v'] rest IH]; cbn [Js.set Js.assoc].
  - rewrite String.eqb_refl. reflexivity.
  - destruct (String.eqb k' k) eqn:E; cbn [Js.assoc]; rewrite E;
      [reflexivity | exact IH].
Qed.

Lemma assoc_set_other (k k' : string) (v : value) (ps : list (string * value)) :
  k <> k' -> Js.assoc k (Js.set k' v ps) = Js.assoc k ps.
Proof.
  intros Hne. induction ps as [|[k0 v0] rest IH]; cbn [Js.set Js.assoc].
  - destruct (String.eqb_spec k' k); [congruence | reflexivity].
  - destruct (String.eqb_spec k0 k') as [->|Hk0]; cbn [Js.assoc].
    + destruct (String.eqb_spec k' k); [congruence | reflexivity].
    + destruct (String.eqb k0 k); [reflexivity | exact IH].
Qed.

Lemma assoc_fold_set_absent (k : string) (ps base : list (string * value)) :
  ~ In k (map fst ps) ->
  Js.assoc k (fold_left (fun acc kv => Js.set (fst kv) (snd kv) acc) ps base)
  = Js.assoc k base.
Proof.
  revert base. induction ps as [|[k' v'] rest IH]; intros base Hnot;
    cbn [fold_left fst snd]; [reflexivity|].
  rewrite IH by (intros Hin; apply Hnot; right; exact Hin).
  apply assoc_set_other. intros ->. apply Hnot. left. reflexivity.
Qed.

(** In [{...base, ...x}] the own properties of [x] win. *)
Lemma spread_own_wins (k : string) (v : value) (ps base : list (string * value)) :
  plain_object (VObj ps) ->
  Js.assoc k ps = Some v ->
  Js.assoc k (Js.spread base (VObj ps)) = Some v.
Proof.
  unfold Js.spread, plain_object. cbn [Js.own_props].
  revert base. induction ps as [|[k' v'] rest IH]; intros base Hnodup Hk;
    [discriminate|].
  cbn [map fst] in Hnodup. inversion Hnodup as [|? ? Hnot Hnodup']; subst.
  cbn [fold_left fst snd]. cbn [Js.assoc] in Hk.
  destruct (String.eqb_spec k' k) as [->|Hne].
  - injection Hk as ->. rewrite assoc_fold_set_absent by exact Hnot.
    apply assoc_set_same.
  - apply IH; assumption.
Qed.

(** In [{...base, ...x}] a name that [x] lacks keeps what [base] gave. *)
Lemma spread_base_stays (k : string) (ps base : list (string * value)) :
  Js.assoc k ps = None ->
  Js.assoc k (Js.spread base (VObj ps)) = Js.assoc k base.
Proof.
  intros Hk. unfold Js.spread. cbn [Js.own_props].
  apply assoc_fold_set_absent. intros Hin.
  induction ps as [|[k' v'] rest IH]; [destruct Hin|].
  cbn [Js.assoc] in Hk. cbn [map fst In] in Hin.
  destruct (String.eqb_spec k' k) as [->|Hne]; [discriminate|].
  destruct Hin as [->|Hin]; [congruence | exact (IH Hk Hin)].
Qed.

Section Synthesizer.

Variable handler_generate : handler -> value -> value -> answer DidGeneration.

Local Abbreviation generate := (Index.generate handler_generate).
Local Abbreviation generate2 := (Index.generate2 handler_generate).
Local Abbreviation seeded := (seeded_generate handler_generate).

(** Every successful [generate2] went through these steps. *)
Lemma generate2_inv (o : Options) (g : DidGeneration) :
  outcome (generate2 o) = inr g ->
  exists generated publicKeyJwk kid' did copy,
    outcome (seeded o) = inr generated
    /\ Js.get "publicKeyJwk" (hd VUndefined (keys generated)) = inr publicKeyJwk
    /\ choose_kid (kid o) publicKeyJwk (hd VUndefined (keys generated)) = inr kid'
    /\ did_of_jwk (VObj (Js.spread [("kid", kid')] publicKeyJwk)) = inr did
    /\ parse_stringify
         (newDoc_of did did (VObj (Js.spread [("kid", kid')] publicKeyJwk)))
       = inr copy
    /\ g = {| keys :=
                [VObj (Js.spread [("id", VStr did); ("controller", VStr did)]
                         (hd VUndefined (keys generated)))];
              gen_didDocument := copy |}.
Proof.
  unfold Index.generate2, seeded_generate. intros H.
  destruct (generate (type o) _ (options_object o)) as [t [e|generated]] eqn:G;
    [cbn in H; discriminate|].
  rewrite (outcome_bind_inr _ _ generated) in H by reflexivity.
  cbv zeta in H. rewrite nth0_hd in H.
  destruct (Js.get "publicKeyJwk" (hd VUndefined (keys generated)))
    as [e|publicKeyJwk] eqn:Hpk; [cbn in H; discriminate|].
  rewrite bind_lift_inr in H.
  destruct (choose_kid (kid o) publicKeyJwk (hd VUndefined (keys generated)))
    as [e|kid'] eqn:Hkid; [cbn in H; discriminate|].
  rewrite bind_lift_inr in H.
  destruct (did_of_jwk (VObj (Js.spread [("kid", kid')] publicKeyJwk)))
    as [e|did] eqn:Hdid; [cbn in H; discriminate|].
  rewrite bind_lift_inr in H.
  destruct (parse_stringify
              (newDoc_of did did (VObj (Js.spread [("kid", kid')] publicKeyJwk))))
    as [e|copy] eqn:Hcopy; [cbn in H; discriminate|].
  rewrite bind_lift_inr in H. cbn in H. injection H as <-.
  exists generated, publicKeyJwk, kid', did, copy.
  repeat split; reflexivity || assumption.
Qed.

(** C8, as amended.  When the handler that [generate2] dispatches to
    answers with an empty list of keys, [generate2] fails: the first key is
    [undefined], and taking [publicKeyJwk] out of it raises a TypeError of
    the runtime.  No failure of its own marks the missing key. *)
Theorem generate2_no_keys (o : Options) (generated : DidGeneration) :
  outcome (seeded o) = inr generated ->
  keys generated = [] ->
  outcome (generate2 o) = inl (TypeErrorRead "publicKeyJwk").
Proof.
  unfold Index.generate2, seeded_generate. intros G Hkeys.
  rewrite (outcome_bind_inr _ _ generated G).
  cbv zeta. rewrite Hkeys. reflexivity.
Qed.

(** C7.  The document of a successful [generate2] has the DID, which holds
    no ['#'], as its [id], exactly one verification method, of type
    ['JsonWebKey2020'], whose [id] and [controller] are that same DID, and
    [authentication],
    [capabilityInvocation], [capabilityDelegation] and [keyAgreement] are
    each the one-element list holding the DID. *)
Theorem generate2_document (o : Options) (g : DidGeneration) :
  outcome (generate2 o) = inr g ->
  exists did jwk,
    no_fragment did = true
    /\ gen_didDocument g
       = VObj
           [ ("id", VStr did);
             ("verificationMethod",
               VArr [ VObj [ ("id", VStr did);
                             ("type", VStr "JsonWebKey2020");
                             ("controller", VStr did);
                             ("publicKeyJwk", jwk) ] ]);
             ("authentication", VArr [VStr did]);
             ("capabilityInvocation", VArr [VStr did]);
             ("capabilityDelegation", VArr [VStr did]);
             ("keyAgreement", VArr [VStr did]) ].
Proof.
  intros H.
  destruct (generate2_inv o g H)
    as (generated & publicKeyJwk & kid' & did & copy
        & _ & _ & _ & Hdid & Hcopy & ->).
  destruct (parse_stringify_newDoc did (Js.spread [("kid", kid')] publicKeyJwk))
    as [jwk Hjwk].
  rewrite Hjwk in Hcopy. injection Hcopy as <-.
  destruct (did_of_jwk_object (Js.spread [("kid", kid')] publicKeyJwk))
    as (json & _ & Hdid').
  assert (Hd : did = "did:jwk:" ++ Base64url.encode json) by congruence.
  exists did, jwk. split; [|reflexivity].
  rewrite Hd. apply did_jwk_no_fragment.
Qed.

(** How the returned key relates to the handler's: a field that the
    handler's key has of its own is returned as the handler set it, and
    only a field that it lacks receives the DID. *)
Lemma generate2_key_fields (o : Options) (g generated : DidGeneration)
  (ps : list (string * value)) (field : string) :
  outcome (generate2 o) = inr g ->
  outcome (seeded o) = inr generated ->
  hd VUndefined (keys generated) = VObj ps ->
  field = "id" \/ field = "controller" ->
  exists did k,
    Js.get "id" (gen_didDocument g) = inr (VStr did)
    /\ keys g = [k]
    /\ (forall v, plain_object (VObj ps) -> Js.assoc field ps = Some v ->
                  Js.get field k = inr v)
    /\ (Js.assoc field ps = None -> Js.get field k = inr (VStr did)).
Proof.
  intros H G Hkey Hfield.
  destruct (generate2_inv o g H)
    as (generated' & publicKeyJwk & kid' & did & copy
        & G' & _ & _ & _ & Hcopy & ->).
  assert (generated' = generated) by congruence. subst generated'.
  destruct (parse_stringify_newDoc did (Js.spread [("kid", kid')] publicKeyJwk))
    as [jwk Hjwk].
  rewrite Hjwk in Hcopy. injection Hcopy as <-.
  rewrite Hkey. exists did. eexists. repeat split.
  - intros v Hplain Hown. cbn [Js.get].
    rewrite (spread_own_wins field v ps _ Hplain Hown). reflexivity.
  - intros Hnone. cbn [Js.get].
    rewrite (spread_base_stays field ps _ Hnone).
    destruct Hfield as [->| ->]; reflexivity.
Qed.


(** C6, as amended.  The DID of a successful [generate2] is ['did:jwk:']
    followed by the unpadded base64url encoding of
    [JSON.stringify({kid, ...publicKeyJwk})], where [kid] is the first
    truthy value among [options.kid] and the [kid] of the returned public
    JWK, and otherwise the last colon-delimited segment of the returned
    key's [controller]. *)
Theorem generate2_did (o : Options) (g : DidGeneration) :
  outcome (generate2 o) = inr g ->
  exists generated publicKeyJwk jwk_kid kid' json,
    outcome (seeded o) = inr generated
    /\ Js.get "publicKeyJwk" (hd VUndefined (keys generated)) = inr publicKeyJwk
    /\ (Js.truthy (kid o) = true -> kid' = kid o)
    /\ (Js.truthy (kid o) = false ->
        Js.get "kid" publicKeyJwk = inr jwk_kid
        /\ (Js.truthy jwk_kid = true -> kid' = jwk_kid)
        /\ (Js.truthy jwk_kid = false ->
            exists controller,
              Js.get "controller" (hd VUndefined (keys generated))
              = inr (VStr controller)
              /\ kid' = VStr (Js.split_colon_pop controller)))
    /\ Json.stringify (VObj (Js.spread [("kid", kid')] publicKeyJwk)) = Some json
    /\ Js.get "id" (gen_didDocument g)
       = inr (VStr ("did:jwk:" ++ Base64url.encode json)).
Proof.
  intros H.
  destruct (generate2_inv o g H)
    as (generated & publicKeyJwk & kid' & did & copy
        & G & Hpk & Hkid & Hdid & Hcopy & ->).
  destruct (did_of_jwk_object (Js.spread [("kid", kid')] publicKeyJwk))
    as (json & Hjson & Hdid').
  assert (Hd : did = "did:jwk:" ++ Base64url.encode json) by congruence.
  subst did.
  destruct (parse_stringify_newDoc ("did:jwk:" ++ Base64url.encode json)
              (Js.spread [("kid", kid')] publicKeyJwk)) as [jwk Hjwk].
  rewrite Hjwk in Hcopy. injection Hcopy as <-.
  unfold choose_kid in Hkid.
  destruct (Js.truthy (kid o)) eqn:Hopt.
  - injection Hkid as <-.
    exists generated, publicKeyJwk, VUndefined, (kid o), json.
    repeat split; try assumption; try reflexivity; discriminate.
  - destruct (Js.get "kid" publicKeyJwk) as [e|jwk_kid] eqn:Hjk; [discriminate|].
    exists generated, publicKeyJwk, jwk_kid, kid', json.
    repeat split; try assumption; try reflexivity; try discriminate.
    + intros Ht. rewrite Ht in Hkid. injection Hkid as <-. reflexivity.
    + intros Hf. rewrite Hf in Hkid.
      destruct (Js.get "controller" (hd VUndefined (keys generated)))
        as [e|controller]; [discriminate|].
      destruct controller; try discriminate.
      injection Hkid as <-. eexists; split; reflexivity.
Qed.

End Synthesizer.

(** C1.  With a handler that, as the handlers do, stamps its key with a
    did:key [id] and [controller], the key that [generate2] returns still
    carries them: in [{id: didUrl, controller: did, ...k}] the spread comes
    last, so the handler's fields win over the computed did:jwk DID. *)
Theorem generate2_keeps_handler_id :
  exists g k,
    outcome (Index.generate2 Fixture.handler_generate Fixture.options) = inr g
    /\ Js.get "id" (gen_didDocument g) = inr (VStr Fixture.did_jwk)
    /\ keys g = [k]
    /\ Js.get "id" k = inr (VStr Fixture.key_id)
    /\ Js.get "controller" k = inr (VStr Fixture.did_key)
    /\ Fixture.key_id <> Fixture.did_jwk
    /\ Fixture.did_key <> Fixture.did_jwk.
Proof.
  eexists. eexists.
  split; [vm_compute; reflexivity|].
  repeat split; try reflexivity; discriminate.
Qed.

(** C8, as stated, fails: with no key in the handler's answer the failure
    of [generate2] is none that index.ts raises, but the TypeError of the
    runtime on [undefined]; and it does not tell an empty list, since an
    answer of two keys whose first is [null] fails in the same way. *)
Lemma generate2_no_keys_counterexample :
  exists e,
    outcome (Index.generate2 Fixture.handler_generate_no_keys Fixture.options)
    = inl e
    /\ e = TypeErrorRead "publicKeyJwk"
    /\ raised_by_throw e = false
    /\ outcome (Index.generate2 Fixture.handler_generate_null_first
                  Fixture.options)
       = inl e.
Proof.
  exists (TypeErrorRead "publicKeyJwk"). repeat split; reflexivity.
Qed.

(** C6, as stated, fails when [options.kid] is present but empty: the code
    passes over it and takes the last segment of the controller, so the DID
    is not the encoding of [{kid: options.kid, ...publicKeyJwk}]. *)
Lemma generate2_empty_kid_counterexample :
  kid Fixture.options_empty_kid = VStr EmptyString
  /\ exists g json,
       outcome (Index.generate2 Fixture.handler_generate Fixture.options_empty_kid)
       = inr g
       /\ Js.get "kid" Fixture.publicKeyJwk = inr VUndefined
       /\ Json.stringify
            (VObj (Js.spread [("kid", kid Fixture.options_empty_kid)]
                     Fixture.publicKeyJwk))
          = Some json
       /\ Js.get "id" (gen_didDocument g) = inr (VStr Fixture.did_jwk)
       /\ Fixture.did_jwk <> "did:jwk:" ++ Base64url.encode json.
Proof.
  split; [reflexivity|].
  eexists. eexists.
  split; [vm_compute; reflexivity|].
  split; [reflexivity|].
  split; [vm_compute; reflexivity|].
  split; [reflexivity|].
  vm_compute. discriminate.
Qed.

(** Runs of the theorems above on the handlers of [Fixture]. *)

Lemma generate_options_policy_witness :
  Index.generate Fixture.handler_generate "ed25519" VNull Fixture.did_ld_json
  = Index.call_generate Fixture.handler_generate ed25519 VNull Fixture.did_ld_json.
Proof.
  refine (proj2 (proj2 (proj2
            (generate_options_policy Fixture.handler_generate VNull
               Fixture.did_ld_json))) "ed25519" ed25519 _ _ _ _).
  - reflexivity.
  - discriminate.
  - discriminate.
  - discriminate.
Defined.

Lemma registry_round_trip_witness :
  Index.resolve Fixture.handler_resolve Fixture.did_key Fixture.did_ld_json
  = Index.call_resolve Fixture.handler_resolve ed25519 Fixture.did_key
      Fixture.did_ld_json.
Proof.
  refine (proj2 (proj2 (proj2
            (registry_round_trip Fixture.handler_generate Fixture.handler_resolve
               "ed25519" ed25519 "did:key:z6Mk" _ _)))
            Fixture.did_key Fixture.did_ld_json _).
  - reflexivity.
  - simpl. left. reflexivity.
  - reflexivity.
Defined.

Lemma classifier_table_witness :
  getKeyPairClassFromKey
    (VObj [("type", VStr "JsonWebKey2020");
           ("publicKeyJwk", VObj [("kty", VStr "EC"); ("crv", VStr "P-256")])])
  = inr WebCryptoKey.
Proof.
  refine (proj2 (proj2 (proj2 (proj2 (proj2
            (proj2 (classifier_table _) _ (VStr "EC") (VStr "P-256") _ _ _ _)))))
            _ _ _ _ _);
    solve [reflexivity | discriminate].
Defined.

Lemma generate2_no_keys_witness :
  outcome (Index.generate2 Fixture.handler_generate_no_keys Fixture.options)
  = inl (TypeErrorRead "publicKeyJwk").
Proof.
  apply (generate2_no_keys Fixture.handler_generate_no_keys Fixture.options
           {| keys := []; gen_didDocument := Fixture.json_document |}).
  - reflexivity.
  - reflexivity.
Defined.

(* ------------------------------------------------------------------ *)
(** ** Properties of the converter *)

Lemma first_failure_In {A : Type} (s : stage) (e : error) (rs : list (staged A)) :
  In (inl (s, e)) rs -> exists e', first_failure s rs = Some e'.
Proof.
  induction rs as [|r rest IH]; simpl; [intros []|].
  intros [->|Hin].
  - destruct s; simpl; eexists; reflexivity.
  - destruct r as [[s' e']|a]; [|auto].
    destruct (stage_eqb s s'); [eexists; reflexivity | auto].
Qed.

(** [Promise.all] rejects as soon as one of its promises does. *)
Lemma Promise_all_rejects {A : Type} (s : stage) (e : error) (rs : list (staged A)) :
  In (inl (s, e)) rs -> exists e', Promise_all rs = inl e'.
Proof.
  intros Hin. destruct (first_failure_In s e rs Hin) as [e' He'].
  unfold Promise_all.
  destruct (first_failure Synchronous rs) eqn:E0; [eexists; reflexivity|].
  destruct (first_failure AfterImport rs) eqn:E1; [eexists; reflexivity|].
  destruct (first_failure AfterExport rs) eqn:E2; [eexists; reflexivity|].
  destruct s; congruence.
Qed.

Section Converter.

Variable instance : Type.
Variable handler_resolve : handler -> string -> value -> answer DidResolution.
Variable KeyPair_from : keyPairClass -> value -> answer instance.
Variable KeyPair_export : instance -> value -> answer value.

Local Abbreviation resolve_value := (Index.resolve_value handler_resolve).
Local Abbreviation convert_key :=
  (Index.convert_key instance KeyPair_from KeyPair_export).
Local Abbreviation convert :=
  (Index.convert instance handler_resolve KeyPair_from KeyPair_export).

(** Once both resolutions of [keys[0].controller] have answered, [convert]
    is [Promise.all] over the callbacks, paired with the new document. *)
Lemma convert_resolved (keys : list value) (ro controller : value)
  (oldRepresentation newRepresentation : DidResolution) :
  Js.get "controller" (nth 0 keys VUndefined) = inr controller ->
  outcome (resolve_value controller did_json) = inr oldRepresentation ->
  outcome (resolve_value controller ro) = inr newRepresentation ->
  outcome (convert keys ro)
  = match Promise_all (map (convert_key oldRepresentation newRepresentation) keys) with
    | inl e => inl e
    | inr converted =>
        inr {| keys := converted;
               gen_didDocument := didDocument newRepresentation |}
    end
  /\ trace (convert keys ro)
     = (trace (resolve_value controller did_json)
        ++ trace (resolve_value controller ro))%list.
Proof.
  intros Hc Hold Hnew. unfold Index.convert. rewrite Hc, bind_lift_inr.
  split.
  - rewrite (outcome_bind_inr _ _ _ Hold), (outcome_bind_inr _ _ _ Hnew).
    destruct (Promise_all _) as [e|converted]; reflexivity.
  - rewrite (trace_bind_inr _ _ _ Hold), (trace_bind_inr _ _ _ Hnew).
    destruct (Promise_all _) as [e|converted]; cbn;
      rewrite app_nil_r; reflexivity.
Qed.

(** A key whose id is in neither list of verification methods, or in only
    one of them, makes its callback reject. *)
Lemma convert_key_missing (oldRepresentation newRepresentation : DidResolution)
  (k : value) :
  find_verificationMethod oldRepresentation k = inr VUndefined
  \/ find_verificationMethod newRepresentation k = inr VUndefined ->
  exists s e, convert_key oldRepresentation newRepresentation k = inl (s, e).
Proof.
  unfold Index.convert_key. intros [Hold|Hnew].
  - destruct (find_verificationMethod newRepresentation k) as [e|vm];
      [eexists _, _; reflexivity|].
    rewrite Hold. eexists _, _; reflexivity.
  - rewrite Hnew.
    destruct (find_verificationMethod oldRepresentation k) as [e|vmAsJson];
      [eexists _, _; reflexivity|].
    destruct (getKeyPairClassFromKey vmAsJson) as [e|KeyPair];
      [eexists _, _; reflexivity|].
    destruct (KeyPair_from KeyPair k) as [reason|k1]; cbn;
      eexists _, _; reflexivity.
Qed.

(** C2, as amended.  When both resolutions of [keys[0].controller] have
    answered and some input key's id is absent from the verification
    methods of the old or of the new resolution, [convert] fails.  With that key
    as the only input, the failure is the TypeError of reading [type] from
    the verification method that was not found, in two cases: the id is
    missing from the old resolution and the search of the new one
    completes; or the id is missing from the new resolution while the old
    verification method is classified and the key imported without
    failure. *)
Theorem convert_missing_verificationMethod
  (keys : list value) (ro controller : value)
  (oldRepresentation newRepresentation : DidResolution) (k : value) :
  Js.get "controller" (nth 0 keys VUndefined) = inr controller ->
  outcome (resolve_value controller did_json) = inr oldRepresentation ->
  outcome (resolve_value controller ro) = inr newRepresentation ->
  In k keys ->
  find_verificationMethod oldRepresentation k = inr VUndefined
  \/ find_verificationMethod newRepresentation k = inr VUndefined ->
  (exists e, outcome (convert keys ro) = inl e)
  /\ (keys = [k] ->
      find_verificationMethod oldRepresentation k = inr VUndefined ->
      (exists vm, find_verificationMethod newRepresentation k = inr vm) ->
      outcome (convert keys ro) = inl (TypeErrorRead "type"))
  /\ (keys = [k] ->
      find_verificationMethod newRepresentation k = inr VUndefined ->
      forall vmAsJson KeyPair k1,
        find_verificationMethod oldRepresentation k = inr vmAsJson ->
        getKeyPairClassFromKey vmAsJson = inr KeyPair ->
        KeyPair_from KeyPair k = inr k1 ->
        outcome (convert keys ro) = inl (TypeErrorRead "type")).
Proof.
  intros Hc Hold Hnew Hin Hmissing.
  destruct (convert_resolved keys ro controller _ _ Hc Hold Hnew) as [Hout _].
  repeat split.
  - destruct (convert_key_missing oldRepresentation newRepresentation k Hmissing)
      as (s & e & Hk).
    assert (Hin' : In (inl (s, e))
                     (map (convert_key oldRepresentation newRepresentation) keys)).
    { rewrite <- Hk. apply in_map. exact Hin. }
    destruct (Promise_all_rejects s e _ Hin') as [e' He'].
    exists e'. rewrite Hout, He'. reflexivity.
  - intros -> Ho [vm Hn]. rewrite Hout. cbn [map].
    unfold Index.convert_key. rewrite Hn, Ho. reflexivity.
  - intros -> Hn vmAsJson KeyPair k1 Ho Hclass Hfrom. rewrite Hout. cbn [map].
    unfold Index.convert_key. rewrite Hn, Ho, Hclass, Hfrom. reflexivity.
Qed.

(** C10.  [convert] takes the DID to resolve from [keys[0].controller]
    alone.  On an empty list it fails on that read, before any resolution.
    On a non-empty list whose first controller is the string [c], every
    call it makes into a handler is a [resolve] of [c]; and once the two
    resolutions have answered, every input key, whatever its own
    controller, is converted against those two resolutions, the result
    being [Promise.all] over them with the new document. *)
Theorem convert_first_controller (ro : value) :
  convert [] ro = ([], inl (TypeErrorRead "controller"))
  /\ (forall k0 rest c ev,
        Js.get "controller" k0 = inr (VStr c) ->
        In ev (trace (convert (k0 :: rest) ro)) ->
        exists h ro', ev = CallResolve h c ro')
  /\ (forall k0 rest controller oldRepresentation newRepresentation,
        Js.get "controller" k0 = inr controller ->
        outcome (resolve_value controller did_json) = inr oldRepresentation ->
        outcome (resolve_value controller ro) = inr newRepresentation ->
        outcome (convert (k0 :: rest) ro)
        = match Promise_all
                  (map (convert_key oldRepresentation newRepresentation)
                     (k0 :: rest)) with
          | inl e => inl e
          | inr converted =>
              inr {| keys := converted;
                     gen_didDocument := didDocument newRepresentation |}
          end
        /\ trace (convert (k0 :: rest) ro)
           = (trace (resolve_value controller did_json)
              ++ trace (resolve_value controller ro))%list).
Proof.
  split; [reflexivity|]. split.
  - intros k0 rest c ev Hc. unfold Index.convert. cbn [nth].
    rewrite Hc, bind_lift_inr. cbn [Index.resolve_value].
    assert (Hres : forall ro0,
               Index.resolve handler_resolve c ro0 = ([], inl (TypeErrorCall "resolve"))
               \/ (exists m, Index.resolve handler_resolve c ro0 = ([], inl (Error m)))
               \/ (exists h, Index.resolve handler_resolve c ro0
                              = Index.call_resolve handler_resolve h c ro0)).
    { intros ro0. unfold Index.resolve.
      destruct (lookup startsWithMap (String.substring 0 12 c)) as [h| |].
      - right; right. exists h. reflexivity.
      - left. reflexivity.
      - right; left. eexists. reflexivity. }
    destruct (Hres did_json) as [E|[[m E]|[h E]]]; rewrite E;
      try (cbn; intros []).
    unfold Index.call_resolve at 1.
    destruct (handler_resolve h c did_json) as [reason|oldRepresentation];
      cbn [settle bind].
    + cbn. intros [<-|[]]. eexists _, _; reflexivity.
    + destruct (Hres ro) as [E'|[[m' E']|[h' E']]]; rewrite E'.
      * cbn. intros [<-|[]]. eexists _, _; reflexivity.
      * cbn. intros [<-|[]]. eexists _, _; reflexivity.
      * unfold Index.call_resolve at 1.
        destruct (handler_resolve h' c ro) as [reason|newRepresentation];
          cbn [settle bind].
        -- cbn. intros [<-|[<-|[]]]; eexists _, _; reflexivity.
        -- destruct (lift (Promise_all _)) as [t [e|converted]] eqn:P;
             unfold lift in P; injection P as <- _; cbn;
             intros [<-|[<-|[]]]; eexists _, _; reflexivity.
  - intros k0 rest controller oldRepresentation newRepresentation Hc Hold Hnew.
    exact (convert_resolved (k0 :: rest) ro controller _ _ Hc Hold Hnew).
Qed.

End Converter.

(** C2, as stated, fails when the import of the key fails first: the id of
    the key is absent from the new resolution, the old one has it, and
    [convert] reports the rejection of [KeyPair.from], not the missing
    verification method. *)
Lemma convert_import_failure_counterexample :
  exists oldRepresentation newRepresentation,
    outcome (Index.resolve_value Fixture.handler_resolve_renamed
               (VStr Fixture.did_key) did_json) = inr oldRepresentation
    /\ outcome (Index.resolve_value Fixture.handler_resolve_renamed
                  (VStr Fixture.did_key) Fixture.did_ld_json)
       = inr newRepresentation
    /\ Js.get "controller" Fixture.key = inr (VStr Fixture.did_key)
    /\ find_verificationMethod newRepresentation Fixture.key = inr VUndefined
    /\ outcome (Index.convert Fixture.instance Fixture.handler_resolve_renamed
                  Fixture.KeyPair_from_refusing Fixture.KeyPair_export
                  [Fixture.key] Fixture.did_ld_json)
       = inl (Rejected "unsupported key")
    /\ Rejected "unsupported key" <> TypeErrorRead "type".
Proof.
  eexists. eexists.
  split; [vm_compute; reflexivity|].
  split; [vm_compute; reflexivity|].
  repeat split; try reflexivity; discriminate.
Qed.

Lemma convert_missing_verificationMethod_witness :
  outcome (Index.convert Fixture.instance Fixture.handler_resolve
             Fixture.KeyPair_from Fixture.KeyPair_export
             [Fixture.other_key] Fixture.did_ld_json)
  = inl (TypeErrorRead "type").
Proof.
  refine (proj1 (proj2
            (convert_missing_verificationMethod Fixture.instance
               Fixture.handler_resolve Fixture.KeyPair_from Fixture.KeyPair_export
               [Fixture.other_key] Fixture.did_ld_json (VStr "did:key:z6LSother")
               {| didDocument := Fixture.json_document |}
               {| didDocument := Fixture.ld_document |}
               Fixture.other_key _ _ _ _ _)) _ _ _).
  - reflexivity.
  - reflexivity.
  - reflexivity.
  - simpl. left. reflexivity.
  - left. reflexivity.
  - reflexivity.
  - reflexivity.
  - eexists. reflexivity.
Defined.

Lemma convert_first_controller_witness :
  exists h ro',
    CallResolve x25519 "did:key:z6LSother" Fixture.did_ld_json
    = CallResolve h "did:key:z6LSother" ro'.
Proof.
  refine (proj1 (proj2
            (convert_first_controller Fixture.instance Fixture.handler_resolve
               Fixture.KeyPair_from Fixture.KeyPair_export Fixture.did_ld_json))
            Fixture.other_key [Fixture.key] "did:key:z6LSother" _ _ _).
  - reflexivity.
  - vm_compute. right. left. reflexivity.
Defined.

Lemma generate2_document_witness :
  exists did jwk,
    no_fragment did = true
    /\ gen_didDocument Fixture.generation
       = VObj
           [ ("id", VStr did);
             ("verificationMethod",
               VArr [ VObj [ ("id", VStr did);
                             ("type", VStr "JsonWebKey2020");
                             ("controller", VStr did);
                             ("publicKeyJwk", jwk) ] ]);
             ("authentication", VArr [VStr did]);
             ("capabilityInvocation", VArr [VStr did]);
             ("capabilityDelegation", VArr [VStr did]);
             ("keyAgreement", VArr [VStr did]) ].
Proof.
  apply (generate2_document Fixture.handler_generate Fixture.options
           Fixture.generation).
  vm_compute. reflexivity.
Defined.

Lemma generate2_did_witness :
  exists json,
    Json.stringify
      (VObj (Js.spread [("kid", VStr "z6MkhaXg")] Fixture.publicKeyJwk))
    = Some json
    /\ Js.get "id" (gen_didDocument Fixture.generation)
       = inr (VStr ("did:jwk:" ++ Base64url.encode json)).
Proof.
  destruct (generate2_did Fixture.handler_generate Fixture.options
              Fixture.generation)
    as (generated & publicKeyJwk & jwk_kid & kid' & json
        & G & Hpk & _ & Hkid & Hjson & Hid).
  - vm_compute. reflexivity.
  - exists json. split; [|exact Hid].
    vm_compute in G. injection G as <-.
    vm_compute in Hpk. injection Hpk as <-.
    destruct (Hkid eq_refl) as (Hjk & _ & Hseg).
    vm_compute in Hjk. injection Hjk as <-.
    destruct (Hseg eq_refl) as (controller & Hc & ->).
    vm_compute in Hc. injection Hc as <-.
    exact Hjson.
Defined.

(* ------------------------------------------------------------------ *)
(** ** Further properties of the registry and of the dispatcher *)

Lemma typeMap_assoc_In (type : string) (h : handler) :
  In (type, h) typeMap -> Js.assoc type typeMap = Some h.
Proof.
  unfold typeMap; cbn [In]. intros H.
  repeat (destruct H as [H|H]; [injection H as <- <-; reflexivity|]).
  destruct H.
Qed.

Lemma typeMap_In_assoc (type : string) (h : handler) :
  Js.assoc type typeMap = Some h -> In (type, h) typeMap.
Proof.
  intros H.
  destruct (registered_types type h H)
    as [E|[E|[E|[E|[E|[E|E]]]]]]; injection E as -> ->;
    unfold typeMap; cbn [In]; tauto.
Qed.

Lemma startsWithMap_assoc_In (p : string) (h : handler) :
  In (p, h) startsWithMap -> Js.assoc p startsWithMap = Some h.
Proof.
  unfold startsWithMap; cbn [In]. intros H.
  repeat (destruct H as [H|H]; [injection H as <- <-; reflexivity|]).
  destruct H.
Qed.

(** The registered prefixes are 12 characters long and start with
    ['did:key:z']. *)
Lemma registered_prefix_shape (p : string) (h : handler) :
  In (p, h) startsWithMap ->
  String.length p = 12 /\ String.substring 0 9 p = "did:key:z".
Proof.
  unfold startsWithMap; cbn [In]. intros H.
  repeat (destruct H as [H|H]; [injection H as <- <-; split; reflexivity|]).
  destruct H.
Qed.

Lemma substring_length_le (n : nat) (s : string) :
  String.length (String.substring 0 n s) <= String.length s.
Proof.
  revert n. induction s as [|c rest IH]; intros n.
  - destruct n; apply Nat.le_refl.
  - destruct n; cbn [String.substring String.length].
    + apply Nat.le_0_l.
    + apply le_n_S. apply IH.
Qed.

Lemma substring_substring (m n : nat) (s : string) :
  m <= n ->
  String.substring 0 m (String.substring 0 n s) = String.substring 0 m s.
Proof.
  revert m n. induction s as [|c rest IH]; intros m n Hle.
  - destruct n; reflexivity.
  - destruct n as [|n].
    + apply Nat.le_0_r in Hle. subst m. reflexivity.
    + destruct m as [|m]; [reflexivity|].
      cbn [String.substring]. f_equal. apply IH. apply le_S_n. exact Hle.
Qed.

Lemma noSupportForSeed_registered (type : string) :
  includes noSupportForSeed type = true -> Js.assoc type typeMap = Some web.
Proof.
  unfold includes, noSupportForSeed. cbn [existsb].
  rewrite !(String.eqb_sym type).
  destruct (String.eqb_spec "secp256r1" type) as [<-|H1]; [reflexivity|].
  destruct (String.eqb_spec "secp384r1" type) as [<-|H2]; [reflexivity|].
  destruct (String.eqb_spec "secp521r1" type) as [<-|H3]; [reflexivity|].
  discriminate.
Qed.

(** X1.  [getOptionsForType] answers exactly for the types listed in
    [noSupportForSeed], with an ['EC'] descriptor, and each of them is
    registered in [typeMap] with the web handler; for every other type it
    throws. *)
Theorem getOptionsForType_domain (type : string) :
  (includes noSupportForSeed type = true ->
   exists descriptor crvOrSize,
     getOptionsForType type = inr descriptor
     /\ descriptor = VObj [("kty", VStr "EC"); ("crvOrSize", VStr crvOrSize)]
     /\ lookup typeMap type = Own web)
  /\ (includes noSupportForSeed type = false ->
      getOptionsForType type = inl (Error ("No options for type: " ++ type))).
Proof.
  unfold includes, noSupportForSeed, getOptionsForType. cbn [existsb].
  rewrite !(String.eqb_sym type).
  destruct (String.eqb_spec "secp256r1" type) as [<-|H1];
    [split; [intros _; eexists _, _; repeat split; reflexivity | discriminate]|].
  destruct (String.eqb_spec "secp384r1" type) as [<-|H2];
    [split; [intros _; eexists _, _; repeat split; reflexivity | discriminate]|].
  destruct (String.eqb_spec "secp521r1" type) as [<-|H3];
    [split; [intros _; eexists _, _; repeat split; reflexivity | discriminate]|].
  cbn [orb]. split; [discriminate | reflexivity].
Qed.

Section DispatcherCalls.

Variable handler_generate : handler -> value -> value -> answer DidGeneration.
Variable handler_resolve : handler -> string -> value -> answer DidResolution.

Local Abbreviation generate := (Index.generate handler_generate).
Local Abbreviation call_generate := (Index.call_generate handler_generate).
Local Abbreviation resolve := (Index.resolve handler_resolve).
Local Abbreviation call_resolve := (Index.call_resolve handler_resolve).

(** X2.  [generate] on a type that is no name inherited from
    [Object.prototype]: a registered type goes to its handler; any other
    type throws ['did-key.js does not support: ' + type] and no handler is
    called.  No other [Error] comes out of [generate]: the throw of
    [getOptionsForType] is never reached. *)
Theorem generate_dispatch (type : string) (go ro : value) :
  includes Object_prototype_names type = false ->
  (forall h, In (type, h) typeMap ->
             exists go', generate type go ro = call_generate h go' ro)
  /\ ((forall h, ~ In (type, h) typeMap) ->
      generate type go ro
      = ([], inl (Error ("did-key.js does not support: " ++ type))))
  /\ (forall message,
        outcome (generate type go ro) = inl (Error message) ->
        message = "did-key.js does not support: " ++ type
        /\ forall h, ~ In (type, h) typeMap).
Proof.
  intros Hproto.
  destruct (Js.assoc type typeMap) as [h0|] eqn:Hassoc.
  - assert (Hcall : exists go', generate type go ro = call_generate h0 go' ro).
    { destruct (registered_types type h0 Hassoc)
        as [E|[E|[E|[E|[E|[E|E]]]]]]; injection E as -> ->;
        eexists; reflexivity. }
    repeat split.
    + intros h Hin. apply typeMap_assoc_In in Hin.
      assert (h = h0) by congruence. subst h. exact Hcall.
    + intros Hnone. exfalso.
      exact (Hnone h0 (typeMap_In_assoc type h0 Hassoc)).
    + destruct Hcall as [go' Hcall]. rewrite Hcall in H.
      unfold Index.call_generate in H. cbn in H.
      destruct (handler_generate h0 go' ro); discriminate.
    + destruct Hcall as [go' Hcall]. rewrite Hcall in H.
      unfold Index.call_generate in H. cbn in H.
      destruct (handler_generate h0 go' ro); discriminate.
  - assert (Hnone : forall h, ~ In (type, h) typeMap).
    { intros h Hin. apply typeMap_assoc_In in Hin. congruence. }
    assert (Hthrow : generate type go ro
                     = ([], inl (Error ("did-key.js does not support: " ++ type)))).
    { unfold Index.generate, lookup. rewrite Hassoc, Hproto. reflexivity. }
    repeat split.
    + intros h Hin. exfalso. exact (Hnone h Hin).
    + intros _. exact Hthrow.
    + rewrite Hthrow in H. unfold outcome in H. cbn [snd] in H. congruence.
    + exact Hnone.
Qed.

(** X3.  Whatever the type, [generate] calls at most one handler: the one
    registered for the type, with the caller's resolution options
    unchanged. *)
Theorem generate_calls_at_most_once (type : string) (go ro : value) :
  trace (generate type go ro) = []
  \/ exists h go',
       In (type, h) typeMap
       /\ trace (generate type go ro) = [CallGenerate h go' ro].
Proof.
  destruct (Js.assoc type typeMap) as [h0|] eqn:Hassoc.
  - right. exists h0.
    destruct (registered_types type h0 Hassoc)
      as [E|[E|[E|[E|[E|[E|E]]]]]]; injection E as -> ->;
      eexists; (split; [unfold typeMap; cbn [In]; tauto | reflexivity]).
  - left. unfold Index.generate, lookup. rewrite Hassoc.
    destruct (includes Object_prototype_names type); [|reflexivity].
    destruct (includes noSupportForSeed type) eqn:Hseed; [|reflexivity].
    rewrite (noSupportForSeed_registered type Hseed) in Hassoc. discriminate.
Qed.

(** X5.  Every call [resolve] makes into a handler passes the whole DID and
    the options on, to the handler registered for the first 12 characters;
    such a DID is at least 12 characters long and starts with
    ['did:key:z'].  A shorter DID never reaches a handler. *)
Theorem resolve_forwards_did_key (did : string) (ro : value) (ev : dispatch) :
  In ev (trace (resolve did ro)) ->
  exists h,
    ev = CallResolve h did ro
    /\ In (String.substring 0 12 did, h) startsWithMap
    /\ 12 <= String.length did
    /\ String.substring 0 9 did = "did:key:z".
Proof.
  unfold Index.resolve, lookup.
  destruct (Js.assoc (String.substring 0 12 did) startsWithMap) as [h|] eqn:Hassoc.
  - cbn. intros [<-|[]]. exists h.
    pose proof (registered_prefixes _ _ Hassoc) as Hin.
    destruct (registered_prefix_shape _ _ Hin) as [Hlen Hpre].
    repeat split; try assumption.
    + rewrite <- Hlen. apply substring_length_le.
    + rewrite <- Hpre. symmetry. apply substring_substring.
      repeat constructor.
  - destruct (includes Object_prototype_names (String.substring 0 12 did));
      cbn; intros [].
Qed.

End DispatcherCalls.

(** X6.  The two tables are unambiguous and agree on the handler families: no
    key occurs twice, no key is a name inherited from [Object.prototype],
    and a handler can be reached through a type exactly when it can be
    reached through a prefix. *)
Theorem registry_tables_agree :
  NoDup (map fst typeMap)
  /\ NoDup (map fst startsWithMap)
  /\ (forall key,
        In key (map fst typeMap ++ map fst startsWithMap)%list ->
        includes Object_prototype_names key = false)
  /\ (forall h, (exists type, In (type, h) typeMap)
                <-> (exists p, In (p, h) startsWithMap)).
Proof.
  split; [|split; [|split]].
  - unfold typeMap; cbn [map fst].
    repeat (constructor;
            [cbn [In]; intros H;
             repeat (destruct H as [H|H]; [discriminate|]); destruct H|]).
    constructor.
  - unfold startsWithMap; cbn [map fst].
    repeat (constructor;
            [cbn [In]; intros H;
             repeat (destruct H as [H|H]; [discriminate|]); destruct H|]).
    constructor.
  - unfold typeMap, startsWithMap; cbn [map fst app In]. intros key H.
    repeat (destruct H as [H|H]; [subst key; reflexivity|]). destruct H.
  - intros h. split.
    + intros [type Hin]. unfold typeMap in Hin; cbn [In] in Hin.
      repeat (destruct Hin as [Hin|Hin];
              [injection Hin as <- <-; eexists; unfold startsWithMap;
               cbn [In]; intuition eauto|]).
      destruct Hin.
    + intros [p Hin]. unfold startsWithMap in Hin; cbn [In] in Hin.
      repeat (destruct Hin as [Hin|Hin];
              [injection Hin as <- <-; eexists; unfold typeMap;
               cbn [In]; intuition eauto|]).
      destruct Hin.
Qed.

(* ------------------------------------------------------------------ *)
(** ** Further properties of the did:jwk synthesizer *)

Lemma trace_bind {A B : Type} (m : M A) (f : A -> M B) :
  trace (bind m f)
  = (trace m ++ match outcome m with
                | inr a => trace (f a)
                | inl _ => []
                end)%list.
Proof.
  destruct m as [t [e|a]]; cbn; [rewrite app_nil_r; reflexivity|].
  destruct (f a); reflexivity.
Qed.

Lemma trace_lift {A : Type} (r : result A) : trace (lift r) = [].
Proof. reflexivity. Qed.

(** No DID that starts with ['did:jwk:'] has a registered prefix. *)
Lemma lookup_did_jwk (rest : string) :
  lookup startsWithMap (String.substring 0 12 ("did:jwk:" ++ rest)) = Missing.
Proof. reflexivity. Qed.

Section SynthesizerCalls.

Variable handler_generate : handler -> value -> value -> answer DidGeneration.
Variable handler_resolve : handler -> string -> value -> answer DidResolution.

Local Abbreviation generate2 := (Index.generate2 handler_generate).
Local Abbreviation seeded := (seeded_generate handler_generate).
Local Abbreviation resolve := (Index.resolve handler_resolve).

(** After its call into the dispatcher [generate2] calls no handler. *)
Lemma generate2_trace (o : Options) :
  trace (generate2 o) = trace (seeded o).
Proof.
  unfold Index.generate2, seeded_generate. rewrite trace_bind.
  destruct (outcome (Index.generate handler_generate (type o) _ _))
    as [e|generated]; [apply app_nil_r|].
  cbv zeta. rewrite trace_bind, trace_lift.
  destruct (outcome (lift (Js.get "publicKeyJwk" _))) as [e|publicKeyJwk];
    [apply app_nil_r|].
  rewrite trace_bind, trace_lift.
  destruct (outcome (lift (choose_kid _ _ _))) as [e|kid']; [apply app_nil_r|].
  rewrite trace_bind, trace_lift.
  destruct (outcome (lift (did_of_jwk _))) as [e|did]; [apply app_nil_r|].
  rewrite trace_bind, trace_lift.
  destruct (outcome (lift (parse_stringify _))) as [e|copy]; apply app_nil_r.
Qed.

(** X7.  For a registered type [generate2] makes exactly one call, into the
    handler of the type, and hands it the caller's [options] object
    itself, with every field it has, as resolution options.  The generate
    options carry the seed as [secureRandom], except for the types of
    [noSupportForSeed]: there they are the fixed descriptor, which has no
    [secureRandom], so the seed does not reach the handler's generate
    options. *)
Theorem generate2_handler_call (o : Options) (h : handler) :
  Js.assoc (type o) typeMap = Some h ->
  exists go,
    trace (generate2 o) = [CallGenerate h go (options_object o)]
    /\ (includes noSupportForSeed (type o) = false ->
        go = VObj [("secureRandom", VSecureRandom (seed o))])
    /\ (includes noSupportForSeed (type o) = true ->
        getOptionsForType (type o) = inr go
        /\ Js.get "secureRandom" go = inr VUndefined).
Proof.
  intros Hreg. rewrite generate2_trace. unfold seeded_generate.
  destruct o as [obj ty Hty]. cbn [type] in *.
  destruct (registered_types _ _ Hreg)
    as [E|[E|[E|[E|[E|[E|E]]]]]]; injection E as -> ->;
    eexists; (split; [reflexivity|]);
    (split; [intros H; solve [reflexivity | discriminate H]
            | intros H; solve [split; reflexivity | discriminate H]]).
Qed.

(** X8.  [resolve] does not know the DIDs that [generate2] makes: on the [id]
    of the document of a successful [generate2] it throws the
    unsupported-prefix error and calls no handler. *)
Theorem generate2_then_resolve (o : Options) (g : DidGeneration)
  (did : string) (ro : value) :
  outcome (generate2 o) = inr g ->
  Js.get "id" (gen_didDocument g) = inr (VStr did) ->
  resolve did ro
  = ([], inl (Error ("did-key.js does not support: "
                       ++ String.substring 0 12 did ++ "..."))).
Proof.
  intros H Hid.
  destruct (generate2_inv handler_generate o g H)
    as (generated & publicKeyJwk & kid' & did' & copy
        & _ & _ & _ & Hdid & Hcopy & ->).
  destruct (parse_stringify_newDoc did' (Js.spread [("kid", kid')] publicKeyJwk))
    as [jwk Hjwk].
  rewrite Hjwk in Hcopy. injection Hcopy as <-.
  destruct (did_of_jwk_object (Js.spread [("kid", kid')] publicKeyJwk))
    as (json & _ & Hdid').
  assert (Hd : did' = "did:jwk:" ++ Base64url.encode json) by congruence.
  assert (Hsame : did = did').
  { cbn [gen_didDocument Js.get Js.assoc] in Hid.
    replace (String.eqb "id" "id") with true in Hid by reflexivity.
    congruence. }
  subst did did'. unfold Index.resolve. rewrite lookup_did_jwk. reflexivity.
Qed.

(** X9.  When the first key of the handler has no [publicKeyJwk], as a
    Linked-Data key has none: without a truthy [options.kid], [generate2]
    fails on reading [kid] from [undefined]; with one, it succeeds and the
    DID encodes [{kid}] alone. *)
Theorem generate2_without_publicKeyJwk (o : Options) (generated : DidGeneration) :
  outcome (seeded o) = inr generated ->
  Js.get "publicKeyJwk" (hd VUndefined (keys generated)) = inr VUndefined ->
  (Js.truthy (kid o) = false ->
   outcome (generate2 o) = inl (TypeErrorRead "kid"))
  /\ (Js.truthy (kid o) = true ->
      exists g json,
        outcome (generate2 o) = inr g
        /\ Json.stringify (VObj [("kid", kid o)]) = Some json
        /\ Js.get "id" (gen_didDocument g)
           = inr (VStr ("did:jwk:" ++ Base64url.encode json))).
Proof.
  intros G Hpk. unfold Index.generate2. unfold seeded_generate in G.
  rewrite (outcome_bind_inr _ _ generated G). cbv zeta.
  rewrite nth0_hd, Hpk, bind_lift_inr. unfold choose_kid.
  split; intros Hkid; rewrite Hkid.
  - reflexivity.
  - rewrite bind_lift_inr.
    destruct (did_of_jwk_object (Js.spread [("kid", kid o)] VUndefined))
      as (json & Hjson & Hdid).
    rewrite Hdid, bind_lift_inr.
    destruct (parse_stringify_newDoc ("did:jwk:" ++ Base64url.encode json)
                (Js.spread [("kid", kid o)] VUndefined)) as [jwk Hjwk].
    rewrite Hjwk, bind_lift_inr.
    eexists _, json. split; [reflexivity|]. split; [exact Hjson | reflexivity].
Qed.

(** X10.  A public JWK that has a [kid] of its own keeps it: in
    [{kid, ...publicKeyJwk}] the spread comes last, so the object that the
    DID encodes holds the JWK's [kid], whatever [options.kid] was. *)
Theorem generate2_jwk_kid_wins (o : Options) (g generated : DidGeneration)
  (ps : list (string * value)) (own_kid : value) :
  outcome (generate2 o) = inr g ->
  outcome (seeded o) = inr generated ->
  Js.get "publicKeyJwk" (hd VUndefined (keys generated)) = inr (VObj ps) ->
  plain_object (VObj ps) ->
  Js.assoc "kid" ps = Some own_kid ->
  exists jwk json,
    Js.assoc "kid" jwk = Some own_kid
    /\ Json.stringify (VObj jwk) = Some json
    /\ Js.get "id" (gen_didDocument g)
       = inr (VStr ("did:jwk:" ++ Base64url.encode json)).
Proof.
  intros H G Hpk Hplain Hown.
  destruct (generate2_inv handler_generate o g H)
    as (generated' & publicKeyJwk & kid' & did & copy
        & G' & Hpk' & _ & Hdid & Hcopy & ->).
  fold (seeded o) in G'.
  assert (generated' = generated) by congruence. subst generated'.
  assert (publicKeyJwk = VObj ps) by congruence. subst publicKeyJwk.
  destruct (did_of_jwk_object (Js.spread [("kid", kid')] (VObj ps)))
    as (json & Hjson & Hdid').
  assert (Hd : did = "did:jwk:" ++ Base64url.encode json) by congruence.
  subst did.
  destruct (parse_stringify_newDoc ("did:jwk:" ++ Base64url.encode json)
              (Js.spread [("kid", kid')] (VObj ps))) as [jwk Hjwk].
  rewrite Hjwk in Hcopy. injection Hcopy as <-.
  exists (Js.spread [("kid", kid')] (VObj ps)), json.
  split; [exact (spread_own_wins "kid" own_kid ps _ Hplain Hown)|].
  split; [exact Hjson | reflexivity].
Qed.

End SynthesizerCalls.

Section SynthesizerInputs.

Variable handler_generate handler_generate' :
  handler -> value -> value -> answer DidGeneration.

(** X11.  What [generate2] answers depends on the handler's answer through its
    first key only: further keys and the handler's own document are
    dropped.  Two calls with the same [options.kid] whose handlers answer
    with the same first key have the same outcome, whatever the type, the
    seed and the rest of the answers. *)
Theorem generate2_first_key_only (o o' : Options)
  (generated generated' : DidGeneration) :
  outcome (seeded_generate handler_generate o) = inr generated ->
  outcome (seeded_generate handler_generate' o') = inr generated' ->
  kid o = kid o' ->
  hd VUndefined (keys generated) = hd VUndefined (keys generated') ->
  outcome (Index.generate2 handler_generate o)
  = outcome (Index.generate2 handler_generate' o').
Proof.
  unfold seeded_generate, Index.generate2. intros G G' Hkid Hhd.
  rewrite (outcome_bind_inr _ _ generated G).
  rewrite (outcome_bind_inr _ _ generated' G').
  cbv zeta. rewrite !nth0_hd, Hkid, Hhd. reflexivity.
Qed.

(** X12.  The document of [generate2] is made of the public part of the key:
    two successful calls with the same [options.kid] whose first keys have
    the same [publicKeyJwk] and the same [controller] give the same
    document, whatever else the keys hold ([privateKeyJwk], [id],
    [type]). *)
Theorem generate2_document_public_only (o o' : Options)
  (g g' generated generated' : DidGeneration) :
  outcome (Index.generate2 handler_generate o) = inr g ->
  outcome (Index.generate2 handler_generate' o') = inr g' ->
  outcome (seeded_generate handler_generate o) = inr generated ->
  outcome (seeded_generate handler_generate' o') = inr generated' ->
  kid o = kid o' ->
  Js.get "publicKeyJwk" (hd VUndefined (keys generated))
  = Js.get "publicKeyJwk" (hd VUndefined (keys generated')) ->
  Js.get "controller" (hd VUndefined (keys generated))
  = Js.get "controller" (hd VUndefined (keys generated')) ->
  gen_didDocument g = gen_didDocument g'.
Proof.
  intros H H' G G' Hkid Hpk Hc.
  destruct (generate2_inv handler_generate o g H)
    as (gen0 & publicKeyJwk & kid0 & did & copy
        & G0 & Hpk0 & Hkid0 & Hdid & Hcopy & ->).
  destruct (generate2_inv handler_generate' o' g' H')
    as (gen1 & publicKeyJwk' & kid1 & did' & copy'
        & G1 & Hpk1 & Hkid1 & Hdid' & Hcopy' & ->).
  assert (gen0 = generated) by congruence. subst gen0.
  assert (gen1 = generated') by congruence. subst gen1.
  assert (publicKeyJwk' = publicKeyJwk) by congruence. subst publicKeyJwk'.
  assert (Hk : kid1 = kid0).
  { unfold choose_kid in Hkid0, Hkid1. rewrite <- Hkid, <- Hc in Hkid1.
    congruence. }
  subst kid1.
  assert (did' = did) by congruence. subst did'.
  cbn [gen_didDocument]. congruence.
Qed.

End SynthesizerInputs.

(* ------------------------------------------------------------------ *)
(** ** Further properties of the classifier and of the converter *)

(** X15.  The failures of the classifier, each with its cause: no verification
    method at all, a [type] other than ['JsonWebKey2020'], or that type
    without a [publicKeyJwk].  In every other case it answers a class. *)
Theorem classifier_failures (k : value) :
  (k = VUndefined \/ k = VNull ->
   getKeyPairClassFromKey k = inl (TypeErrorRead "type"))
  /\ (forall ty,
        Js.get "type" k = inr ty -> ty <> VStr "JsonWebKey2020" ->
        getKeyPairClassFromKey k
        = inl (Error "getKeyPairClassFromKey only supports JsonWebKey2020"))
  /\ (forall publicKeyJwk,
        Js.get "type" k = inr (VStr "JsonWebKey2020") ->
        Js.get "publicKeyJwk" k = inr publicKeyJwk ->
        (publicKeyJwk = VUndefined \/ publicKeyJwk = VNull ->
         getKeyPairClassFromKey k = inl (TypeErrorRead "kty"))
        /\ (publicKeyJwk <> VUndefined -> publicKeyJwk <> VNull ->
            exists KeyPair, getKeyPairClassFromKey k = inr KeyPair)).
Proof.
  split; [|split].
  - intros [->| ->]; reflexivity.
  - intros ty Hty Hne. unfold getKeyPairClassFromKey. rewrite Hty.
    destruct (Js.strict_eq ty (VStr "JsonWebKey2020")) eqn:E; [|reflexivity].
    apply strict_eq_str in E. contradiction.
  - intros publicKeyJwk Hty Hpk. unfold getKeyPairClassFromKey.
    rewrite Hty, Hpk.
    replace (Js.strict_eq (VStr "JsonWebKey2020") (VStr "JsonWebKey2020"))
      with true by reflexivity.
    split.
    + intros [->| ->]; reflexivity.
    + intros Hu Hn.
      destruct publicKeyJwk; try contradiction; cbn [Js.get];
        repeat match goal with
          | |- context [if ?c then _ else _] => destruct c
          end; eexists; reflexivity.
Qed.

Lemma first_failure_Some_In {A : Type} (s : stage) (e : error)
  (rs : list (staged A)) :
  first_failure s rs = Some e -> In (inl (s, e)) rs.
Proof.
  induction rs as [|[[s' e']|a] rest IH]; cbn [first_failure In];
    [discriminate| |auto].
  destruct s, s'; cbn [stage_eqb]; intros H;
    solve [injection H as ->; left; reflexivity | right; exact (IH H)].
Qed.

(** [Promise.all] fulfils only when every promise did, with the values in
    the order of the promises. *)
Lemma Promise_all_fulfilled {A : Type} (rs : list (staged A)) (values : list A) :
  Promise_all rs = inr values -> rs = map inr values.
Proof.
  unfold Promise_all.
  destruct (first_failure Synchronous rs) eqn:E0; [discriminate|].
  destruct (first_failure AfterImport rs) eqn:E1; [discriminate|].
  destruct (first_failure AfterExport rs) eqn:E2; [discriminate|].
  intros H. injection H as <-.
  induction rs as [|[[s e]|a] rest IH].
  - reflexivity.
  - destruct s; cbn in E0, E1, E2; discriminate.
  - cbn [fulfilled map]. f_equal. apply IH; assumption.
Qed.

Section ConverterCalls.

Variable instance : Type.
Variable handler_resolve : handler -> string -> value -> answer DidResolution.
Variable KeyPair_from : keyPairClass -> value -> answer instance.
Variable KeyPair_export : instance -> value -> answer value.

Local Abbreviation resolve_value := (Index.resolve_value handler_resolve).
Local Abbreviation convert_key :=
  (Index.convert_key instance KeyPair_from KeyPair_export).
Local Abbreviation convert :=
  (Index.convert instance handler_resolve KeyPair_from KeyPair_export).

(** A fulfilled callback went through every step. *)
Lemma convert_key_fulfilled (oldRepresentation newRepresentation : DidResolution)
  (k k2 : value) :
  convert_key oldRepresentation newRepresentation k = inr k2 ->
  exists vm vmAsJson KeyPair k1 vm_type,
    find_verificationMethod newRepresentation k = inr vm
    /\ find_verificationMethod oldRepresentation k = inr vmAsJson
    /\ getKeyPairClassFromKey vmAsJson = inr KeyPair
    /\ KeyPair_from KeyPair k = inr k1
    /\ Js.get "type" vm = inr vm_type
    /\ KeyPair_export k1 (VObj [("type", vm_type); ("privateKey", VBool true)])
       = inr k2.
Proof.
  unfold Index.convert_key.
  destruct (find_verificationMethod newRepresentation k) as [e|vm] eqn:Hvm;
    [discriminate|].
  destruct (find_verificationMethod oldRepresentation k) as [e|vmAsJson]
    eqn:Hjson; [discriminate|].
  destruct (getKeyPairClassFromKey vmAsJson) as [e|KeyPair] eqn:Hclass;
    [discriminate|].
  destruct (KeyPair_from KeyPair k) as [reason|k1] eqn:Hfrom;
    cbn [settle]; [discriminate|].
  destruct (Js.get "type" vm) as [e|vm_type] eqn:Hty; [discriminate|].
  destruct (KeyPair_export k1 _) as [reason|exported] eqn:Hexp;
    cbn [settle at_stage]; [discriminate|].
  intros H. injection H as <-.
  exists vm, vmAsJson, KeyPair, k1, vm_type. repeat split; assumption.
Qed.

(** X16.  A successful [convert] returns one key for each input key, in the
    order of the input, and the document of the new resolution.  Each
    returned key is the input key imported into the class found for its
    verification method in the old resolution, and exported with the
    private key and with the [type] of its verification method in the new
    resolution. *)
Theorem convert_success (input : list value) (ro : value) (g : DidGeneration) :
  outcome (convert input ro) = inr g ->
  exists controller oldRepresentation newRepresentation,
    Js.get "controller" (nth 0 input VUndefined) = inr controller
    /\ outcome (resolve_value controller did_json) = inr oldRepresentation
    /\ outcome (resolve_value controller ro) = inr newRepresentation
    /\ gen_didDocument g = didDocument newRepresentation
    /\ List.length (keys g) = List.length input
    /\ Forall2
         (fun k k2 =>
            exists vm vmAsJson KeyPair k1 vm_type,
              find_verificationMethod newRepresentation k = inr vm
              /\ find_verificationMethod oldRepresentation k = inr vmAsJson
              /\ getKeyPairClassFromKey vmAsJson = inr KeyPair
              /\ KeyPair_from KeyPair k = inr k1
              /\ Js.get "type" vm = inr vm_type
              /\ KeyPair_export k1
                   (VObj [("type", vm_type); ("privateKey", VBool true)])
                 = inr k2)
         input (keys g).
Proof.
  intros H.
  destruct (Js.get "controller" (nth 0 input VUndefined)) as [e|controller] eqn:Hc.
  { unfold Index.convert in H. rewrite Hc in H. discriminate. }
  destruct (outcome (resolve_value controller did_json))
    as [e|oldRepresentation] eqn:Hold.
  { unfold Index.convert in H. rewrite Hc, bind_lift_inr in H.
    rewrite (outcome_bind_inl _ _ e Hold) in H. discriminate. }
  destruct (outcome (resolve_value controller ro))
    as [e|newRepresentation] eqn:Hnew.
  { unfold Index.convert in H. rewrite Hc, bind_lift_inr in H.
    rewrite (outcome_bind_inr _ _ _ Hold) in H.
    rewrite (outcome_bind_inl _ _ e Hnew) in H. discriminate. }
  destruct (convert_resolved instance handler_resolve KeyPair_from KeyPair_export
              input ro controller _ _ Hc Hold Hnew) as [Hout _].
  rewrite Hout in H.
  destruct (Promise_all (map (convert_key oldRepresentation newRepresentation) input))
    as [e|converted] eqn:Hall; [discriminate|].
  injection H as <-. cbn [gen_didDocument].
  apply Promise_all_fulfilled in Hall.
  exists controller, oldRepresentation, newRepresentation.
  split; [reflexivity|]. split; [exact Hold|]. split; [exact Hnew|].
  split; [reflexivity|]. cbn [keys]. split.
  - pose proof (f_equal (@List.length _) Hall) as Hlen.
    rewrite !length_map in Hlen. symmetry. exact Hlen.
  - clear - Hall. revert converted Hall.
    induction input as [|k rest IH]; intros [|k2 converted] Hall;
      try discriminate; constructor.
    + cbn [map] in Hall. injection Hall as Hk _.
      exact (convert_key_fulfilled _ _ k k2 Hk).
    + cbn [map] in Hall. injection Hall as _ Hrest. exact (IH _ Hrest).
Qed.

End ConverterCalls.

Section ConverterOrder.

Variable instance : Type.
Variable handler_resolve : handler -> string -> value -> answer DidResolution.
Variable KeyPair_from : keyPairClass -> value -> answer instance.
Variable KeyPair_export : instance -> value -> answer value.

Local Abbreviation resolve_value := (Index.resolve_value handler_resolve).
Local Abbreviation convert_key :=
  (Index.convert_key instance KeyPair_from KeyPair_export).
Local Abbreviation convert :=
  (Index.convert instance handler_resolve KeyPair_from KeyPair_export).

(** X17.  The two resolutions of [convert], for a first controller with a
    registered prefix: the first asks for ['application/did+json'] whatever
    the caller asked for, the second passes the caller's options on, and
    both go to the same handler with the whole controller.  When the first
    is rejected, the second is not attempted and [convert] fails with that
    rejection; when the second is rejected, [convert] fails with it.  No
    other handler call is made, however many keys there are. *)
Theorem convert_resolutions (input : list value) (ro : value)
  (c : string) (h : handler) :
  Js.get "controller" (nth 0 input VUndefined) = inr (VStr c) ->
  Js.assoc (String.substring 0 12 c) startsWithMap = Some h ->
  (forall reason,
     handler_resolve h c did_json = inl reason ->
     convert input ro = ([CallResolve h c did_json], inl (Rejected reason)))
  /\ (forall oldRepresentation,
        handler_resolve h c did_json = inr oldRepresentation ->
        trace (convert input ro)
        = [CallResolve h c did_json; CallResolve h c ro])
  /\ (forall oldRepresentation reason,
        handler_resolve h c did_json = inr oldRepresentation ->
        handler_resolve h c ro = inl reason ->
        outcome (convert input ro) = inl (Rejected reason)).
Proof.
  intros Hc Hassoc.
  assert (Hres : forall ro0,
             Index.resolve handler_resolve c ro0
             = ([CallResolve h c ro0], settle (handler_resolve h c ro0))).
  { intros ro0. unfold Index.resolve, lookup. rewrite Hassoc. reflexivity. }
  unfold Index.convert. rewrite Hc, bind_lift_inr.
  cbn [Index.resolve_value]. rewrite !Hres.
  split; [|split].
  - intros reason Hold. rewrite Hold. reflexivity.
  - intros oldRepresentation Hold. rewrite Hold. cbn [settle bind].
    destruct (handler_resolve h c ro) as [reason|newRepresentation];
      cbn [settle]; [reflexivity|].
    destruct (lift (Promise_all _)) as [t [e|converted]] eqn:P;
      unfold lift in P; injection P as <- _; reflexivity.
  - intros oldRepresentation reason Hold Hnew. rewrite Hold.
    cbn [settle bind]. rewrite Hnew. reflexivity.
Qed.

(** X18.  Which failure [convert] reports: when the callback of some key throws
    before its first [await] (its verification method is missing from the
    old resolution, or is one the classifier refuses), the failure that
    [convert] reports is such a synchronous failure of one of the keys, and
    never the rejection of an import or of an export. *)
Theorem convert_synchronous_failure_first (input : list value)
  (ro controller : value)
  (oldRepresentation newRepresentation : DidResolution)
  (k : value) (e : error) :
  Js.get "controller" (nth 0 input VUndefined) = inr controller ->
  outcome (resolve_value controller did_json) = inr oldRepresentation ->
  outcome (resolve_value controller ro) = inr newRepresentation ->
  In k input ->
  convert_key oldRepresentation newRepresentation k = inl (Synchronous, e) ->
  exists k' e',
    In k' input
    /\ convert_key oldRepresentation newRepresentation k' = inl (Synchronous, e')
    /\ outcome (convert input ro) = inl e'.
Proof.
  intros Hc Hold Hnew Hin Hk.
  destruct (convert_resolved instance handler_resolve KeyPair_from KeyPair_export
              input ro controller _ _ Hc Hold Hnew) as [Hout _].
  assert (Hin' : In (inl (Synchronous, e))
                   (map (convert_key oldRepresentation newRepresentation) input)).
  { rewrite <- Hk. apply in_map. exact Hin. }
  destruct (first_failure_In Synchronous e _ Hin') as [e' He'].
  pose proof (first_failure_Some_In Synchronous e' _ He') as Hin''.
  apply in_map_iff in Hin''. destruct Hin'' as (k' & Hk' & Hink').
  exists k', e'. split; [exact Hink'|]. split; [exact Hk'|].
  rewrite Hout. unfold Promise_all. rewrite He'. reflexivity.
Qed.

End ConverterOrder.

Section SynthesizerKey.

Variable handler_generate : handler -> value -> value -> answer DidGeneration.

(** X13.  The key that a successful [generate2] returns is the handler's first
    key with defaults: every field the handler's key has of its own,
    [privateKeyJwk] included, comes back as the handler set it; [id] and
    [controller] receive the DID only where the handler's key lacks them;
    no other field is added. *)
Theorem generate2_returns_handler_key (o : Options)
  (g generated : DidGeneration) (ps : list (string * value)) :
  outcome (Index.generate2 handler_generate o) = inr g ->
  outcome (seeded_generate handler_generate o) = inr generated ->
  hd VUndefined (keys generated) = VObj ps ->
  plain_object (VObj ps) ->
  exists did k,
    Js.get "id" (gen_didDocument g) = inr (VStr did)
    /\ keys g = [k]
    /\ (forall field v, Js.assoc field ps = Some v -> Js.get field k = inr v)
    /\ (Js.assoc "id" ps = None -> Js.get "id" k = inr (VStr did))
    /\ (Js.assoc "controller" ps = None ->
        Js.get "controller" k = inr (VStr did))
    /\ (forall field,
          Js.assoc field ps = None ->
          field <> "id" -> field <> "controller" ->
          Js.get field k = inr VUndefined).
Proof.
  intros H G Hkey Hplain.
  destruct (generate2_inv handler_generate o g H)
    as (generated' & publicKeyJwk & kid' & did & copy
        & G' & _ & _ & _ & Hcopy & ->).
  fold (seeded_generate handler_generate o) in G'.
  assert (generated' = generated) by congruence. subst generated'.
  destruct (parse_stringify_newDoc did (Js.spread [("kid", kid')] publicKeyJwk))
    as [jwk Hjwk].
  rewrite Hjwk in Hcopy. injection Hcopy as <-.
  rewrite Hkey. exists did. eexists.
  split; [reflexivity|]. split; [reflexivity|].
  split; [|split; [|split]].
  - intros field v Hown. cbn [Js.get].
    rewrite (spread_own_wins field v ps _ Hplain Hown). reflexivity.
  - intros Hnone. cbn [Js.get].
    rewrite (spread_base_stays "id" ps _ Hnone). reflexivity.
  - intros Hnone. cbn [Js.get].
    rewrite (spread_base_stays "controller" ps _ Hnone). reflexivity.
  - intros field Hnone Hid Hcontroller. cbn [Js.get].
    rewrite (spread_base_stays field ps _ Hnone). cbn [Js.assoc].
    destruct (String.eqb_spec "id" field); [congruence|].
    destruct (String.eqb_spec "controller" field); [congruence|].
    reflexivity.
Qed.

End SynthesizerKey.

Section ConverterGuards.

Variable instance : Type.
Variable handler_resolve : handler -> string -> value -> answer DidResolution.
Variable KeyPair_from : keyPairClass -> value -> answer instance.
Variable KeyPair_export : instance -> value -> answer value.

Local Abbreviation convert :=
  (Index.convert instance handler_resolve KeyPair_from KeyPair_export).

(** X19.  The calls on which [convert] fails without calling any handler: a
    first key without [controller] (it throws on [substring] of
    [undefined]), and a first controller whose first 12 characters are
    neither a registered prefix nor a name inherited from
    [Object.prototype] (it throws the unsupported-prefix error of
    [resolve]).  The other keys are not looked at. *)
Theorem convert_fails_before_resolving (input : list value) (ro : value) :
  (Js.get "controller" (nth 0 input VUndefined) = inr VUndefined ->
   convert input ro = ([], inl (TypeErrorRead "substring")))
  /\ (forall c,
        Js.get "controller" (nth 0 input VUndefined) = inr (VStr c) ->
        lookup startsWithMap (String.substring 0 12 c) = Missing ->
        convert input ro
        = ([], inl (Error ("did-key.js does not support: "
                             ++ String.substring 0 12 c ++ "...")))).
Proof.
  split.
  - intros Hc. unfold Index.convert. rewrite Hc, bind_lift_inr. reflexivity.
  - intros c Hc Hmissing. unfold Index.convert. rewrite Hc, bind_lift_inr.
    cbn [Index.resolve_value]. unfold Index.resolve. rewrite Hmissing.
    reflexivity.
Qed.

End ConverterGuards.

(* ------------------------------------------------------------------ *)
(** ** Runs of the further properties on the handlers of [Fixture] *)

Lemma getOptionsForType_domain_witness :
  getOptionsForType "ed25519" = inl (Error ("No options for type: " ++ "ed25519")).
Proof.
  apply (proj2 (getOptionsForType_domain "ed25519")). reflexivity.
Defined.

Lemma generate_dispatch_witness :
  Index.generate Fixture.handler_generate "rsa" VNull Fixture.did_ld_json
  = ([], inl (Error ("did-key.js does not support: " ++ "rsa"))).
Proof.
  apply (proj1 (proj2 (generate_dispatch Fixture.handler_generate
                         "rsa" VNull Fixture.did_ld_json eq_refl))).
  intros h Hin. unfold typeMap in Hin; cbn [In] in Hin.
  repeat (destruct Hin as [Hin|Hin]; [discriminate|]). destruct Hin.
Defined.

Lemma resolve_dispatch_witness :
  Index.resolve Fixture.handler_resolve "did:key:zZZZabcdef" Fixture.did_ld_json
  = throw (Error ("did-key.js does not support: "
                    ++ String.substring 0 12 "did:key:zZZZabcdef" ++ "...")).
Proof.
  apply (proj1 (proj2 (resolve_dispatch Fixture.handler_resolve
                         "did:key:zZZZabcdef" Fixture.did_ld_json eq_refl))).
  intros h Hin. unfold startsWithMap in Hin; cbn [In] in Hin.
  repeat (destruct Hin as [Hin|Hin]; [discriminate|]). destruct Hin.
Defined.

Lemma resolve_forwards_did_key_witness :
  exists h,
    CallResolve ed25519 Fixture.did_key Fixture.did_ld_json
    = CallResolve h Fixture.did_key Fixture.did_ld_json
    /\ In (String.substring 0 12 Fixture.did_key, h) startsWithMap
    /\ 12 <= String.length Fixture.did_key
    /\ String.substring 0 9 Fixture.did_key = "did:key:z".
Proof.
  apply (resolve_forwards_did_key Fixture.handler_resolve Fixture.did_key
           Fixture.did_ld_json).
  left. reflexivity.
Defined.

Lemma registry_tables_agree_witness :
  includes Object_prototype_names "did:key:z6Mk" = false.
Proof.
  apply (proj1 (proj2 (proj2 registry_tables_agree))).
  vm_compute. tauto.
Defined.

Lemma generate2_handler_call_witness :
  exists go,
    trace (Index.generate2 Fixture.handler_generate Fixture.options_p256)
    = [CallGenerate web go
         (VObj [("type", VStr "secp256r1"); ("seed", VStr "00000000");
                ("accept", VStr "application/did+json")])]
    /\ (includes noSupportForSeed (type Fixture.options_p256) = false ->
        go = VObj [("secureRandom", VSecureRandom (seed Fixture.options_p256))])
    /\ (includes noSupportForSeed (type Fixture.options_p256) = true ->
        getOptionsForType (type Fixture.options_p256) = inr go
        /\ Js.get "secureRandom" go = inr VUndefined).
Proof.
  apply (generate2_handler_call Fixture.handler_generate Fixture.options_p256 web).
  reflexivity.
Defined.

Lemma generate2_then_resolve_witness :
  Index.resolve Fixture.handler_resolve Fixture.did_jwk Fixture.did_ld_json
  = ([], inl (Error ("did-key.js does not support: "
                       ++ String.substring 0 12 Fixture.did_jwk ++ "..."))).
Proof.
  apply (generate2_then_resolve Fixture.handler_generate Fixture.handler_resolve
           Fixture.options Fixture.generation).
  - vm_compute. reflexivity.
  - reflexivity.
Defined.

Lemma generate2_without_publicKeyJwk_witness :
  outcome (Index.generate2 Fixture.handler_generate_ld Fixture.options)
  = inl (TypeErrorRead "kid").
Proof.
  apply (proj1 (generate2_without_publicKeyJwk Fixture.handler_generate_ld
                  Fixture.options
                  {| keys := [Fixture.ld_key];
                     gen_didDocument := Fixture.ld_document |}
                  eq_refl eq_refl)).
  reflexivity.
Defined.

Lemma generate2_jwk_kid_wins_witness :
  exists jwk json,
    Js.assoc "kid" jwk = Some (VStr "key-of-the-jwk")
    /\ Json.stringify (VObj jwk) = Some json
    /\ Js.get "id" (gen_didDocument Fixture.generation_with_kid)
       = inr (VStr ("did:jwk:" ++ Base64url.encode json)).
Proof.
  apply (generate2_jwk_kid_wins Fixture.handler_generate_with_kid
           Fixture.options_with_kid Fixture.generation_with_kid
           {| keys := [Fixture.key_with_kid];
              gen_didDocument := Fixture.json_document |}
           Fixture.publicKeyJwk_with_kid).
  - vm_compute. reflexivity.
  - reflexivity.
  - reflexivity.
  - unfold plain_object, Fixture.publicKeyJwk_with_kid. cbn [map fst].
    repeat (constructor;
            [cbn [In]; intros H;
             repeat (destruct H as [H|H]; [discriminate|]); destruct H|]).
    constructor.
  - reflexivity.
Defined.

Lemma generate2_first_key_only_witness :
  outcome (Index.generate2 Fixture.handler_generate Fixture.options)
  = outcome (Index.generate2 Fixture.handler_generate_two_keys Fixture.options_p256).
Proof.
  apply (generate2_first_key_only Fixture.handler_generate
           Fixture.handler_generate_two_keys Fixture.options Fixture.options_p256
           {| keys := [Fixture.key]; gen_didDocument := Fixture.json_document |}
           {| keys := [Fixture.key; Fixture.other_key];
              gen_didDocument := Fixture.ld_document |});
    reflexivity.
Defined.

Lemma generate2_document_public_only_witness :
  gen_didDocument Fixture.generation
  = gen_didDocument Fixture.generation_other_private.
Proof.
  apply (generate2_document_public_only Fixture.handler_generate
           Fixture.handler_generate_other_private Fixture.options Fixture.options
           Fixture.generation Fixture.generation_other_private
           {| keys := [Fixture.key]; gen_didDocument := Fixture.json_document |}
           {| keys := [Fixture.key_other_private];
              gen_didDocument := Fixture.json_document |});
    solve [reflexivity | vm_compute; reflexivity].
Defined.

Lemma classifier_failures_witness :
  getKeyPairClassFromKey
    (VObj [("id", VStr Fixture.key_id); ("type", VStr "JsonWebKey2020");
           ("publicKeyBase58", VStr "4zvwRjXU")])
  = inl (TypeErrorRead "kty").
Proof.
  refine (proj1 (proj2 (proj2
            (classifier_failures
               (VObj [("id", VStr Fixture.key_id);
                      ("type", VStr "JsonWebKey2020");
                      ("publicKeyBase58", VStr "4zvwRjXU")])))
            VUndefined _ _) _).
  - reflexivity.
  - reflexivity.
  - left. reflexivity.
Defined.

Lemma convert_success_witness :
  List.length (keys Fixture.conversion) = 1
  /\ gen_didDocument Fixture.conversion = Fixture.ld_document.
Proof.
  destruct (convert_success Fixture.instance Fixture.handler_resolve
              Fixture.KeyPair_from Fixture.KeyPair_export
              [Fixture.key] Fixture.did_ld_json Fixture.conversion)
    as (controller & oldRepresentation & newRepresentation
        & Hc & Hold & Hnew & Hdoc & Hlen & _).
  - vm_compute. reflexivity.
  - split; [exact Hlen|]. rewrite Hdoc.
    vm_compute in Hc. injection Hc as <-.
    vm_compute in Hnew. injection Hnew as <-. reflexivity.
Defined.

Lemma convert_resolutions_witness :
  trace (Index.convert Fixture.instance Fixture.handler_resolve
           Fixture.KeyPair_from Fixture.KeyPair_export
           [Fixture.key; Fixture.other_key] Fixture.did_ld_json)
  = [CallResolve ed25519 Fixture.did_key did_json;
     CallResolve ed25519 Fixture.did_key Fixture.did_ld_json].
Proof.
  apply (proj1 (proj2
           (convert_resolutions Fixture.instance Fixture.handler_resolve
              Fixture.KeyPair_from Fixture.KeyPair_export
              [Fixture.key; Fixture.other_key] Fixture.did_ld_json
              Fixture.did_key ed25519 eq_refl eq_refl))
           {| didDocument := Fixture.json_document |}).
  reflexivity.
Defined.

Lemma convert_synchronous_failure_first_witness :
  exists k' e',
    In k' [Fixture.key; Fixture.other_key]
    /\ Index.convert_key Fixture.instance Fixture.KeyPair_from
         Fixture.KeyPair_export
         {| didDocument := Fixture.json_document |}
         {| didDocument := Fixture.ld_document |} k'
       = inl (Synchronous, e')
    /\ outcome (Index.convert Fixture.instance Fixture.handler_resolve
                  Fixture.KeyPair_from Fixture.KeyPair_export
                  [Fixture.key; Fixture.other_key] Fixture.did_ld_json)
       = inl e'.
Proof.
  apply (convert_synchronous_failure_first Fixture.instance
           Fixture.handler_resolve Fixture.KeyPair_from Fixture.KeyPair_export
           [Fixture.key; Fixture.other_key] Fixture.did_ld_json
           (VStr Fixture.did_key)
           {| didDocument := Fixture.json_document |}
           {| didDocument := Fixture.ld_document |}
           Fixture.other_key (TypeErrorRead "type")).
  - reflexivity.
  - reflexivity.
  - reflexivity.
  - right. left. reflexivity.
  - reflexivity.
Defined.

Lemma generate2_returns_handler_key_witness :
  exists did k,
    Js.get "id" (gen_didDocument Fixture.generation) = inr (VStr did)
    /\ keys Fixture.generation = [k]
    /\ Js.get "privateKeyJwk" k = inr Fixture.privateKeyJwk
    /\ Js.get "id" k = inr (VStr Fixture.key_id).
Proof.
  destruct (generate2_returns_handler_key Fixture.handler_generate
              Fixture.options Fixture.generation
              {| keys := [Fixture.key]; gen_didDocument := Fixture.json_document |}
              [("id", VStr Fixture.key_id); ("type", VStr "JsonWebKey2020");
               ("controller", VStr Fixture.did_key);
               ("publicKeyJwk", Fixture.publicKeyJwk);
               ("privateKeyJwk", Fixture.privateKeyJwk)])
    as (did & k & Hid & Hkeys & Hown & _).
  - vm_compute. reflexivity.
  - reflexivity.
  - reflexivity.
  - unfold plain_object. cbn [map fst].
    repeat (constructor;
            [cbn [In]; intros H;
             repeat (destruct H as [H|H]; [discriminate|]); destruct H|]).
    constructor.
  - exists did, k. split; [exact Hid|]. split; [exact Hkeys|].
    split; apply Hown; reflexivity.
Defined.

Lemma convert_fails_before_resolving_witness :
  Index.convert Fixture.instance Fixture.handler_resolve Fixture.KeyPair_from
    Fixture.KeyPair_export
    [VObj [("id", VStr Fixture.did_jwk); ("controller", VStr Fixture.did_jwk)]]
    Fixture.did_ld_json
  = ([], inl (Error ("did-key.js does not support: "
                       ++ String.substring 0 12 Fixture.did_jwk ++ "..."))).
Proof.
  apply (proj2 (convert_fails_before_resolving Fixture.instance
                  Fixture.handler_resolve Fixture.KeyPair_from
                  Fixture.KeyPair_export _ Fixture.did_ld_json)
           Fixture.did_jwk).
  - reflexivity.
  - reflexivity.
Defined.
